(** * Mymory: the bubble scanner and the local server

    A shallow embedding of [scan_bubbles.py] and [start_server.py].

    Conventions of the embedding:
    - a Python [str] is a [string]; a character is a code point below 256,
      so that [\d] is the class [0-9] and [\s] the white space of that range;
    - a value read from [config.json] is a [value] (the Python object that
      [json.load] builds); a Python [dict] is an association list in
      insertion order;
    - a Python [float] is a rational, every arithmetic operation being
      followed by the rounding to the nearest binary64 number;
    - [print] appends one [message] per call to a log; in the modules [Scan]
      and [Server] the standard output takes every line, in the module
      [Console] it is an oracle that can refuse a line with an exception;
    - the file system is an oracle ([filesystem]) answering the calls the
      script makes ([os.path.exists], [os.path.isdir], [os.listdir], and
      [open] followed by [json.load]). *)

From Stdlib Require Import List String Ascii Bool Arith ZArith QArith Qround Qabs
  Qpower Lia Lqa.
From Stdlib Require Import Sorting.Sorted Sorting.Permutation DecimalString
  OrderedTypeEx.
Import ListNotations.
Local Open Scope nat_scope.
Local Open Scope list_scope.
Local Open Scope string_scope.

(** ** Python strings *)

Module Str.

Definition code (c : ascii) : nat := nat_of_ascii c.

(** [\d] on code points below 256. *)
Definition is_digit (c : ascii) : bool :=
  ((48 <=? code c) && (code c <=? 57))%nat.

(** [\s] on code points below 256 (the characters [str.isspace] accepts). *)
Definition is_space (c : ascii) : bool :=
  (((9 <=? code c) && (code c <=? 13))
   || ((28 <=? code c) && (code c <=? 32))
   || (code c =? 133) || (code c =? 160))%nat.

Definition in_range (lo hi c : ascii) : bool :=
  ((code lo <=? code c) && (code c <=? code hi))%nat.

Definition digit_value (c : ascii) : Z := Z.of_nat (code c - 48).

Definition newline : ascii := ascii_of_nat 10.

(** [s.replace(a, b)] for one-character [a] and [b]. *)
Fixpoint replace (a b : ascii) (s : string) : string :=
  match s with
  | EmptyString => EmptyString
  | String c r => String (if Ascii.eqb c a then b else c) (replace a b r)
  end.

(** [s.startswith(p)] *)
Definition startswith (p s : string) : bool := String.prefix p s.

(** [s.endswith("/")] *)
Fixpoint ends_with_char (a : ascii) (s : string) : bool :=
  match s with
  | EmptyString => false
  | String c EmptyString => Ascii.eqb c a
  | String _ r => ends_with_char a r
  end.

(** [p in s] for two strings: [p] occurs in [s]. *)
Fixpoint contains (p s : string) : bool :=
  String.prefix p s ||
  match s with
  | EmptyString => false
  | String _ r => contains p r
  end.

(** [s.lstrip()] *)
Fixpoint lstrip (s : string) : string :=
  match s with
  | String c r => if is_space c then lstrip r else s
  | EmptyString => EmptyString
  end.

Fixpoint digits_value (acc : Z) (s : string) : Z :=
  match s with
  | EmptyString => acc
  | String c r => digits_value (10 * acc + digit_value c)%Z r
  end.

(** [int(s)] on the texts the date parser captures: decimal digits,
    possibly after white space. *)
Definition int (s : string) : Z := digits_value 0%Z (lstrip s).

(** [str(n)] for an [int]. *)
Definition of_Z (z : Z) : string := NilZero.string_of_int (Z.to_int z).

Definition of_nat (n : nat) : string := NilZero.string_of_uint (Nat.to_uint n).

(** ['%0wd' % z] for [0 <= z]: [str(z)] padded with zeros on the left. *)
Fixpoint zeros (n : nat) : string :=
  match n with O => EmptyString | S k => String "0" (zeros k) end.

Definition zfill (w : nat) (z : Z) : string :=
  let s := of_Z z in zeros (w - String.length s) ++ s.

(** Comparison of two strings, code point by code point. *)
Definition leb (a b : string) : bool := String.leb a b.

End Str.

(** ** The folder-name pattern *)

Module Re.

(** The regular expressions of the script are sequences of single
    characters and digit classes. *)
Inductive atom : Type :=
| Digit                (* \d *)
| Chr (c : ascii).     (* a literal character *)

(** Matching a sequence of atoms at the start of [s]: the rest of [s]. *)
Fixpoint match_atoms (p : list atom) (s : string) : option string :=
  match p with
  | [] => Some s
  | a :: p' =>
      match s with
      | EmptyString => None
      | String c r =>
          let ok := match a with
                    | Digit => Str.is_digit c
                    | Chr x => Ascii.eqb x c
                    end in
          if ok then match_atoms p' r else None
      end
  end.

(** [$]: the end of the string, or just before a newline that ends it. *)
Definition at_end (s : string) : bool :=
  match s with
  | EmptyString => true
  | String c EmptyString => Ascii.eqb c Str.newline
  | _ => false
  end.

Definition digits (n : nat) : list atom := repeat Digit n.

(** [^\d{4}-\d{2}-\d{2}T\d{2}-\d{2}-\d{2}$] *)
Definition folder_pattern : list atom :=
  digits 4 ++ [Chr "-"] ++ digits 2 ++ [Chr "-"] ++ digits 2 ++ [Chr "T"]
  ++ digits 2 ++ [Chr "-"] ++ digits 2 ++ [Chr "-"] ++ digits 2.

(** [re.match(r'^\d{4}-\d{2}-\d{2}T\d{2}-\d{2}-\d{2}$', s)] as a truth
    value. *)
Definition match_folder_name (s : string) : bool :=
  match match_atoms folder_pattern s with
  | Some r => at_end r
  | None => false
  end.

End Re.

(** ** Python objects *)

Module Py.

(** The exception classes the two scripts can meet, with the part of the
    class hierarchy their [except] clauses depend on. *)
Inductive cls : Type :=
| BaseException | KeyboardInterrupt | Exception
| ValueError | JSONDecodeError | UnicodeDecodeError | UnicodeEncodeError
| TypeError | AttributeError | KeyError | OSError
| RecursionError | MemoryError.

Definition base (c : cls) : option cls :=
  match c with
  | BaseException => None
  | KeyboardInterrupt | Exception => Some BaseException
  | JSONDecodeError | UnicodeDecodeError | UnicodeEncodeError => Some ValueError
  | ValueError | TypeError | AttributeError | KeyError | OSError
  | RecursionError | MemoryError => Some Exception
  end.

Definition cls_eqb (a b : cls) : bool :=
  match a, b with
  | BaseException, BaseException | KeyboardInterrupt, KeyboardInterrupt
  | Exception, Exception | ValueError, ValueError
  | JSONDecodeError, JSONDecodeError
  | UnicodeDecodeError, UnicodeDecodeError
  | UnicodeEncodeError, UnicodeEncodeError | TypeError, TypeError
  | AttributeError, AttributeError | KeyError, KeyError
  | OSError, OSError | RecursionError, RecursionError
  | MemoryError, MemoryError => true
  | _, _ => false
  end.

(** [issubclass(c, d)]; the hierarchy is three levels deep. *)
Fixpoint issubclass_upto (n : nat) (c d : cls) : bool :=
  cls_eqb c d ||
  match n with
  | O => false
  | S k => match base c with
           | Some b => issubclass_upto k b d
           | None => false
           end
  end.

Definition issubclass : cls -> cls -> bool := issubclass_upto 3.

(** An exception object: its class, [e.errno] (for an [OSError]) and
    [str(e)]. *)
Record exn : Type := mkExn { class_of : cls; errno : option Z; str_of : string }.

Definition isinstance (e : exn) (c : cls) : bool := issubclass (class_of e) c.

Definition error (c : cls) (text : string) : exn := mkExn c None text.

(** A Python [float]: a finite number, an infinity or a NaN. *)
Inductive pyfloat : Type :=
| FNum (q : Q)
| FInf (negative : bool)
| FNaN.

(** The objects [json.load] builds, which are also the objects
    [json.dump] writes. *)
#[local] Set Warnings "-register-all".
Inductive value : Type :=
| VNone
| VBool (b : bool)
| VInt (z : Z)
| VFloat (f : pyfloat)
| VStr (s : string)
| VList (l : list value)
| VDict (d : list (string * value)).

Definition dict : Type := list (string * value).

(** [d.get(k)] on a [dict], [None] standing for an absent key. *)
Fixpoint dict_get (k : string) (d : dict) : option value :=
  match d with
  | [] => None
  | (k', v) :: r => if String.eqb k k' then Some v else dict_get k r
  end.

(** [k in d] *)
Definition dict_mem (k : string) (d : dict) : bool :=
  match dict_get k d with Some _ => true | None => false end.

(** [d[k] = v]: the key keeps its place when it is there already and is
    added at the end otherwise. *)
Fixpoint dict_set (k : string) (v : value) (d : dict) : dict :=
  match d with
  | [] => [(k, v)]
  | (k', v') :: r =>
      if String.eqb k k' then (k', v) :: r else (k', v') :: dict_set k v r
  end.

Definition keys (d : dict) : list string := map fst d.

(** [bool(v)] *)
Definition truthy (v : value) : bool :=
  match v with
  | VNone => false
  | VBool b => b
  | VInt z => negb (z =? 0)%Z
  | VFloat (FNum q) => negb (Qeq_bool q 0)
  | VFloat _ => true
  | VStr s => negb (String.eqb s "")
  | VList l => match l with [] => false | _ => true end
  | VDict d => match d with [] => false | _ => true end
  end.

(** [v == s] for a string [s]. *)
Definition eq_str (v : value) (s : string) : bool :=
  match v with
  | VStr t => String.eqb t s
  | _ => false
  end.

Definition type_name (v : value) : string :=
  match v with
  | VNone => "NoneType" | VBool _ => "bool" | VInt _ => "int"
  | VFloat _ => "float" | VStr _ => "str" | VList _ => "list"
  | VDict _ => "dict"
  end.

(** [field in c] for a string [field]: a key of a dict, an element of a
    list, a part of a string; a [TypeError] on any other object. *)
Definition contains (field : string) (c : value) : exn + bool :=
  match c with
  | VDict d => inr (dict_mem field d)
  | VList l => inr (existsb (fun v => eq_str v field) l)
  | VStr s => inr (Str.contains field s)
  | _ => inl (error TypeError
                ("argument of type '" ++ type_name c ++ "' is not iterable"))
  end.

(** [c.get(k, default)]: only a dict has the method. *)
Definition get (c : value) (k : string) (default : value) : exn + value :=
  match c with
  | VDict d => inr (match dict_get k d with Some v => v | None => default end)
  | _ => inl (error AttributeError
                ("'" ++ type_name c ++ "' object has no attribute 'get'"))
  end.

(** [c[k]] for a string [k]. *)
Definition getitem (c : value) (k : string) : exn + value :=
  match c with
  | VDict d => match dict_get k d with
               | Some v => inr v
               | None => inl (error KeyError ("'" ++ k ++ "'"))
               end
  | VList _ =>
      inl (error TypeError "list indices must be integers or slices, not str")
  | VStr _ => inl (error TypeError "string indices must be integers, not 'str'")
  | _ => inl (error TypeError
                ("'" ++ type_name c ++ "' object is not subscriptable"))
  end.

End Py.

(** ** [os.path.join] *)

Module Path.

(** [posixpath.join(a, b)] *)
Definition join (a b : string) : string :=
  if Str.startswith "/" b then b
  else if String.eqb a "" || Str.ends_with_char "/" a then a ++ b
  else a ++ "/" ++ b.

(** [os.path.join(a, b)] for an arbitrary object [b]. *)
Definition join_value (a : string) (b : Py.value) : Py.exn + string :=
  match b with
  | Py.VStr s => inr (join a s)
  | _ => inl (Py.error Py.TypeError
                ("join() argument must be str, bytes, or os.PathLike object, not '"
                   ++ Py.type_name b ++ "'"))
  end.

End Path.

(** ** [datetime.strptime] and [isoformat] *)

Module Datetime.

Record datetime : Type := mkDatetime {
  year : Z; month : Z; day : Z; hour : Z; minute : Z; second : Z
}.

(** A piece of the regular expression that [strptime] builds from its
    format: the texts it can match at the start of a string, each with the
    rest of the string, in the order in which backtracking tries them. *)
Definition matcher : Type := string -> list (string * string).

(** One character of the class [[lo-hi]]. *)
Definition one (lo hi : ascii) : matcher := fun s =>
  match s with
  | String c r => if Str.in_range lo hi c then [(String c "", r)] else []
  | EmptyString => []
  end.

Definition chr (c : ascii) : matcher := one c c.

(** [\d] *)
Definition digit : matcher := fun s =>
  match s with
  | String c r => if Str.is_digit c then [(String c "", r)] else []
  | EmptyString => []
  end.

Definition seq (p q : matcher) : matcher := fun s =>
  flat_map (fun '(a, r) => map (fun '(b, r') => ((a ++ b)%string, r')) (q r))
           (p s).

Definition alt (p q : matcher) : matcher := fun s => (p s ++ q s)%list.

Infix ">+>" := seq (at level 41, right associativity).
Infix "<|>" := alt (at level 42, right associativity).

(** [\s+], the longest run first. *)
Fixpoint spaces (s : string) : list (string * string) :=
  match s with
  | String c r =>
      if Str.is_space c
      then (map (fun '(a, r') => (String c a, r')) (spaces r)
            ++ [(String c "", r)])%list
      else []
  | EmptyString => []
  end.

(** The directives of the format, as [_strptime.TimeRE] defines them. *)
Definition dir_Y : matcher := digit >+> digit >+> digit >+> digit.
Definition dir_m : matcher :=
  chr "1" >+> one "0" "2" <|> chr "0" >+> one "1" "9" <|> one "1" "9".
Definition dir_d : matcher :=
  chr "3" >+> one "0" "1" <|> one "1" "2" >+> digit
  <|> chr "0" >+> one "1" "9" <|> one "1" "9" <|> chr " " >+> one "1" "9".
Definition dir_H : matcher :=
  chr "2" >+> one "0" "3" <|> one "0" "1" >+> digit <|> digit.
Definition dir_M : matcher := one "0" "5" >+> digit <|> digit.
Definition dir_S : matcher :=
  chr "6" >+> one "0" "1" <|> one "0" "5" >+> digit <|> digit.

(** A group of the expression followed by the rest of it. *)
Definition group {A : Type} (p : matcher) (k : string -> string -> list A)
  : string -> list A :=
  fun s => flat_map (fun '(a, r) => k a r) (p s).

Notation "'let*' x ':=' p 'in' k" := (group p (fun x => k))
  (at level 10, x name, p at level 100, k at level 200).

Definition fields : Type := (string * string * string * string * string * string)%type.

(** The expression of the format ['%Y/%m/%d %H/%M/%S']: every way to match
    it at the start of a string, with the text of the six groups and the
    part of the string that is left. *)
Definition format_regex : string -> list (fields * string) :=
  let* gY := dir_Y in let* _ := chr "/" in
  let* gm := dir_m in let* _ := chr "/" in
  let* gd := dir_d in let* _ := spaces in
  let* gH := dir_H in let* _ := chr "/" in
  let* gM := dir_M in let* _ := chr "/" in
  let* gS := dir_S in
  fun rest => [((gY, gm, gd, gH, gM, gS), rest)].

Definition is_leap (y : Z) : bool :=
  ((y mod 4 =? 0) && (negb (y mod 100 =? 0) || (y mod 400 =? 0)))%Z.

Definition days_in_month (y m : Z) : Z :=
  (if m =? 2 then (if is_leap y then 29 else 28)
   else if (m =? 4) || (m =? 6) || (m =? 9) || (m =? 11) then 30
   else 31)%Z.

(** The checks of the [date] and [datetime] constructors. *)
Definition check_date_fields (y m d : Z) : bool :=
  ((1 <=? y) && (y <=? 9999) && (1 <=? m) && (m <=? 12)
   && (1 <=? d) && (d <=? days_in_month y m))%Z.

Definition check_time_fields (h mi s : Z) : bool :=
  ((0 <=? h) && (h <=? 23) && (0 <=? mi) && (mi <=? 59)
   && (0 <=? s) && (s <=? 59))%Z.

(** [datetime.strptime(data, '%Y/%m/%d %H/%M/%S')]: the first match of the
    expression must use the whole string, and the six numbers must make a
    date and a time of day; a [ValueError] otherwise. *)
Definition strptime (data : string) : Py.exn + datetime :=
  match format_regex data with
  | [] => inl (Py.error Py.ValueError
                 ("time data '" ++ data
                    ++ "' does not match format '%Y/%m/%d %H/%M/%S'"))
  | ((gY, gm, gd, gH, gM, gS), rest) :: _ =>
      if negb (String.eqb rest "")
      then inl (Py.error Py.ValueError ("unconverted data remains: " ++ rest))
      else
        let dt := mkDatetime (Str.int gY) (Str.int gm) (Str.int gd)
                             (Str.int gH) (Str.int gM) (Str.int gS) in
        if negb (check_date_fields (year dt) (month dt) (day dt))
        then inl (Py.error Py.ValueError "day is out of range for month")
        else if negb (check_time_fields (hour dt) (minute dt) (second dt))
        then inl (Py.error Py.ValueError "second must be in 0..59")
        else inr dt
  end.

(** [dt.isoformat()] *)
Definition isoformat (dt : datetime) : string :=
  Str.zfill 4 (year dt) ++ "-" ++ Str.zfill 2 (month dt) ++ "-"
  ++ Str.zfill 2 (day dt) ++ "T" ++ Str.zfill 2 (hour dt) ++ ":"
  ++ Str.zfill 2 (minute dt) ++ ":" ++ Str.zfill 2 (second dt).

End Datetime.

(** ** Python floats *)

Module Float.

(** A binary64 number has 53 significant bits and is a multiple of
    [2^-1074]. *)
Definition prec : Z := 53.
Definition emin : Z := -1074.

Definition pow2 (e : Z) : Q := Qpower 2 e.

(** For [0 < q], the exponent [e] with [2^e <= q < 2^(e+1)]. *)
Definition ilog2 (q : Q) : Z :=
  let e := (Z.log2 (Qnum q) - Z.log2 (Zpos (Qden q)))%Z in
  if Qle_bool (pow2 e) q then e else (e - 1)%Z.

(** The nearest integer, the even one of the two when [q] is half way. *)
Definition nearest_even (q : Q) : Z :=
  let f := Qfloor q in
  match Qcompare (q - inject_Z f) (1 # 2) with
  | Lt => f
  | Gt => (f + 1)%Z
  | Eq => if Z.even f then f else (f + 1)%Z
  end.

(** The exponent of the unit in the last place of the floats around
    [q]. *)
Definition ulp_exp (q : Q) : Z := Z.max (ilog2 (Qabs q) - (prec - 1)) emin.

(** The binary64 number nearest to [q], ties to even, as a fraction in
    lowest terms.  The overflow to an infinity (from [2^1024] on) is left
    out: the numbers rounded here are at most 90. *)
Definition round (q : Q) : Q :=
  if Qeq_bool q 0 then 0
  else Qred (inject_Z (nearest_even (q / pow2 (ulp_exp q))) * pow2 (ulp_exp q)).

(** [i / d] for two [int]s, [d] not zero: the quotient, rounded once. *)
Definition truediv (i d : Z) : Q := round (inject_Z i / inject_Z d).

(** [a * k] and [k + a] for a float [a] and a small [int] [k], which
    converts to a float exactly. *)
Definition mul_int (a : Q) (k : Z) : Q := round (a * inject_Z k).
Definition int_add (k : Z) (a : Q) : Q := round (inject_Z k + a).

End Float.

(** ** Effects: printed lines, local state, exceptions, [continue] *)

Module Eff.
Import Py.

(** One line per call of [print].  A line is its text, except for the
    one line of the scanner that interpolates an arbitrary object. *)
Inductive message : Type :=
| Line (text : string)
| Added (folder_name : string) (title : value).
    (* f"SUCCESS: Added '{folder_name}' - {config['title']}" *)

(** How a piece of code ends. *)
Inductive ctrl (A : Type) : Type :=
| Normal (a : A)     (* it runs to its end, with a result *)
| Continue           (* by [continue] *)
| Raise (e : exn)    (* by an exception *)
| Forever.           (* it never ends *)
Arguments Normal {A} a.
Arguments Continue {A}.
Arguments Raise {A} e.
Arguments Forever {A}.

Section Monad.
(** [S] holds the variables the code assigns. *)
Context {S : Type}.

Definition M (A : Type) : Type := S * list message -> (S * list message) * ctrl A.

Definition ret {A} (a : A) : M A := fun w => (w, Normal a).

Definition bind {A B} (m : M A) (f : A -> M B) : M B := fun w =>
  match m w with
  | (w', Normal a) => f a w'
  | (w', Continue) => (w', Continue)
  | (w', Raise e) => (w', Raise e)
  | (w', Forever) => (w', Forever)
  end.

(** A line that the standard output takes.  [Console.print] is the call of
    [print] on a standard output that can refuse it. *)
Definition print (m : message) : M unit := fun w =>
  ((fst w, (snd w ++ [m])%list), Normal tt).

Definition continue {A} : M A := fun w => (w, Continue).
Definition raise {A} (e : exn) : M A := fun w => (w, Raise e).
Definition forever {A} : M A := fun w => (w, Forever).

Definition read : M S := fun w => (w, Normal (fst w)).
Definition write (s : S) : M unit := fun w => ((s, snd w), Normal tt).

(** The result of a call that can raise. *)
Definition lift {A} (r : exn + A) : M A :=
  match r with inl e => raise e | inr a => ret a end.

(** [try: m  except c1 as e: h1 e  except c2 as e: h2 e ...]: the first
    clause whose class the exception is an instance of handles it. *)
Definition try_except {A} (m : M A) (handlers : list (cls * (exn -> M A)))
  : M A := fun w =>
  match m w with
  | (w', Raise e) =>
      match find (fun h => isinstance e (fst h)) handlers with
      | Some h => snd h e w'
      | None => (w', Raise e)
      end
  | r => r
  end.

(** [for x in xs: body x] *)
Fixpoint for_each {X} (xs : list X) (body : X -> M unit) : M unit :=
  match xs with
  | [] => ret tt
  | x :: r => fun w =>
      match body x w with
      | (w', Normal _) | (w', Continue) => for_each r body w'
      | (w', Raise e) => (w', Raise e)
      | (w', Forever) => (w', Forever)
      end
  end.
End Monad.

Arguments M S A : clear implicits.

Declare Scope eff_scope.
Delimit Scope eff_scope with eff.
Notation "x <- m ;; k" := (bind m (fun x => k))
  (at level 61, m at next level, right associativity) : eff_scope.
Notation "m ;; k" := (bind m (fun _ => k))
  (at level 61, right associativity) : eff_scope.

End Eff.

(** ** [scan_bubbles.py], on a standard output that takes every line *)

Module Scan.
Import Py Eff.
Local Open Scope eff_scope.

(** What the script learns from the file system. *)
Record filesystem : Type := {
  path_exists : string -> bool;            (* os.path.exists(p) *)
  path_isdir : string -> bool;             (* os.path.isdir(p) *)
  listdir : string -> exn + list string;   (* os.listdir(p) *)
  load_json : string -> exn + value;
    (* with open(p, 'r', encoding='utf-8') as f: json.load(f) *)
  dump_json : string -> option exn
    (* with open(p, 'w', encoding='utf-8') as f: json.dump(..., f, ...):
       the exception it raises, if any *)
}.

(** The variables of the script: the list [bubbles] that
    [scan_bubbles_folder] builds, and the arrays written to JSON files. *)
Record vars : Type := {
  bubbles : list dict;
  written : list (string * list dict)
}.

Definition M : Type -> Type := Eff.M vars.

Definition get_bubbles : M (list dict) :=
  st <- read ;; ret (bubbles st).

Definition set_bubbles (l : list dict) : M unit :=
  st <- read ;; write {| bubbles := l; written := written st |}.

(** [bubbles.append(b)] *)
Definition append (b : dict) : M unit :=
  st <- read ;;
  write {| bubbles := (bubbles st ++ [b])%list; written := written st |}.

Definition record_file (name : string) (content : list dict) : M unit :=
  st <- read ;;
  write {| bubbles := bubbles st;
           written := (written st ++ [(name, content)])%list |}.

(** [folders.sort()]: strings in increasing order, code point by code
    point. *)
Fixpoint insert (x : string) (l : list string) : list string :=
  match l with
  | [] => [x]
  | y :: r => if Str.leb x y then x :: l else y :: insert x r
  end.

Definition sort (l : list string) : list string := fold_right insert [] l.

Definition required_fields : list string := ["title"; "description"; "has_photo"].

(** [all(field in config for field in fields)] *)
Fixpoint all_in (fields : list string) (config : value) : exn + bool :=
  match fields with
  | [] => inr true
  | f :: r =>
      match contains f config with
      | inl e => inl e
      | inr false => inr false
      | inr true => all_in r config
      end
  end.

Definition photo_extensions : list string :=
  [".jpg"; ".JPG"; ".jpeg"; ".JPEG"; ".png"; ".PNG"; ".gif"; ".GIF";
   ".webp"; ".WEBP"].

Definition possible_names : list string :=
  ["photo"; "image"; "img"; "picture"; "pic"].

(** The two nested loops of the automatic detection: the first extension,
    and for it the first name, such that the file exists. *)
Fixpoint detect_photo (fs : filesystem) (folder_path : string)
         (exts : list string) : option string :=
  match exts with
  | [] => None
  | ext :: r =>
      match find (fun name => path_exists fs (Path.join folder_path (name ++ ext)))
                 possible_names with
      | Some name => Some (name ++ ext)
      | None => detect_photo fs folder_path r
      end
  end.

(** Lines 65-98: the value of [photo_path]. *)
Definition find_photo (fs : filesystem) (folder_name folder_path : string)
           (config : value) : M value :=
  has_photo <- lift (get config "has_photo" VNone) ;;
  if eq_str has_photo "True" then
    photo <- lift (get config "photo" VNone) ;;
    if truthy photo then
      photo <- lift (getitem config "photo") ;;
      photo_file <- lift (Path.join_value folder_path photo) ;;
      match photo with
      | VStr p =>
          if path_exists fs photo_file then
            ret (VStr ("bubbles/" ++ folder_name ++ "/" ++ p))
          else
            print (Line ("WARNING: Photo '" ++ p ++ "' not found in '"
                           ++ folder_name ++ "'")) ;;
            ret (VStr ("bubbles/" ++ folder_name ++ "/" ++ p))
      | _ => (* not reached: [os.path.join] has raised *)
          raise (error TypeError "join() argument must be str")
      end
    else
      match detect_photo fs folder_path photo_extensions with
      | Some found_photo =>
          print (Line ("INFO: Auto-detected photo '" ++ found_photo
                         ++ "' in '" ++ folder_name ++ "'")) ;;
          ret (VStr ("bubbles/" ++ folder_name ++ "/" ++ found_photo))
      | None =>
          print (Line ("WARNING: No photo found in '" ++ folder_name
                         ++ "' despite has_photo=True")) ;;
          ret VNone
      end
  else ret VNone.

(** Lines 47-117: the body of the [try] statement. *)
Definition process_config (fs : filesystem)
           (folder_name folder_path config_path : string) : M unit :=
  config <- lift (load_json fs config_path) ;;
  complete <- lift (all_in required_fields config) ;;
  if negb complete then
    print (Line ("WARNING: Skipping '" ++ folder_name
                   ++ "' - missing required fields")) ;;
    continue
  else
    let date_str := Str.replace "-" "/" (Str.replace "T" " " folder_name) in
    parsed_date <-
      try_except (lift (Datetime.strptime date_str))
        [(ValueError, fun _ =>
            print (Line ("WARNING: Skipping '" ++ folder_name
                           ++ "' - invalid date format")) ;;
            continue)] ;;
    photo_path <- find_photo fs folder_name folder_path config ;;
    bs <- get_bubbles ;;
    title <- lift (getitem config "title") ;;
    description <- lift (getitem config "description") ;;
    location <- lift (get config "location" (VStr "")) ;;
    has_photo <- lift (get config "has_photo" VNone) ;;
    let bubble_data : dict :=
      [("id", VStr ("bubble-" ++ Str.of_nat (List.length bs)));
       ("title", title);
       ("description", description);
       ("location", location);
       ("photo", photo_path);
       ("date", VStr folder_name);
       ("folderName", VStr folder_name);
       ("hasPhoto", VBool (eq_str has_photo "True"));
       ("rawDate", VStr (Datetime.isoformat parsed_date));
       ("size", VInt 150);
       ("x", VInt 0);
       ("y", VInt 50)] in
    append bubble_data ;;
    title <- lift (getitem config "title") ;;
    print (Added folder_name title).

(** Lines 33-122: the body of the loop over the folders. *)
Definition loop_body (fs : filesystem) (bubbles_path folder_name : string)
  : M unit :=
  let folder_path := Path.join bubbles_path folder_name in
  let config_path := Path.join folder_path "config.json" in
  if negb (Re.match_folder_name folder_name) then
    print (Line ("WARNING: Skipping '" ++ folder_name ++ "' - invalid format")) ;;
    continue
  else if negb (path_exists fs config_path) then
    print (Line ("WARNING: Skipping '" ++ folder_name
                   ++ "' - no config.json found")) ;;
    continue
  else
    try_except (process_config fs folder_name folder_path config_path)
      [(JSONDecodeError, fun e =>
          print (Line ("ERROR: Error parsing config.json in '" ++ folder_name
                         ++ "': " ++ str_of e)));
       (Exception, fun e =>
          print (Line ("ERROR: Error processing '" ++ folder_name ++ "': "
                         ++ str_of e)))].

Definition scan_bubbles_folder (fs : filesystem) (bubbles_path : string)
  : M (list dict) :=
  set_bubbles [] ;;
  if negb (path_exists fs bubbles_path) then
    print (Line ("ERROR: Bubbles folder '" ++ bubbles_path ++ "' not found!")) ;;
    get_bubbles
  else
    names <- lift (listdir fs bubbles_path) ;;
    let folders :=
      sort (filter (fun f => path_isdir fs (Path.join bubbles_path f)) names) in
    print (Line ("Found " ++ Str.of_nat (List.length folders) ++ " bubble folders:")) ;;
    for_each folders (loop_body fs bubbles_path) ;;
    get_bubbles.

(** The loop of [calculate_positions], [n] being [len(bubbles)] and [i]
    the index of the first record of [l]. *)
Fixpoint set_positions (n i : nat) (l : list dict) : list dict :=
  match l with
  | [] => []
  | bubble :: r =>
      let timeline_progress :=
        Float.truediv (Z.of_nat i) (Z.max 1 (Z.of_nat n - 1)) in
      dict_set "x" (VFloat (FNum (Float.int_add 10
                                    (Float.mul_int timeline_progress 80))))
               bubble
      :: set_positions n (S i) r
  end.

Definition calculate_positions (bubbles : list dict) : list dict :=
  match bubbles with
  | [] => bubbles
  | _ => set_positions (List.length bubbles) 0 bubbles
  end.

Definition generate_bubbles_json (fs : filesystem) (bubbles : list dict)
           (output_file : string) : M bool :=
  try_except
    (match dump_json fs output_file with
     | Some e => raise e
     | None => record_file output_file bubbles
     end ;;
     print (Line ("SUCCESS: Generated " ++ output_file ++ " with "
                    ++ Str.of_nat (List.length bubbles) ++ " bubbles!")) ;;
     ret true)
    [(Exception, fun e =>
        print (Line ("ERROR: Error generating " ++ output_file ++ ": "
                       ++ str_of e)) ;;
        ret false)].

Definition nl : string := String Str.newline "".

Definition main (fs : filesystem) : M unit :=
  print (Line "Mymory Bubble Scanner") ;;
  print (Line (String.concat "" (repeat "=" 40))) ;;
  bubbles <- scan_bubbles_folder fs "bubbles" ;;
  match bubbles with
  | [] => print (Line "ERROR: No valid bubbles found!")
  | _ =>
      let bubbles := calculate_positions bubbles in
      ok <- generate_bubbles_json fs bubbles "bubbles.json" ;;
      if ok : bool then
        print (Line (nl ++ "SUCCESS: Your bubbles.json is ready!")) ;;
        print (Line (nl ++ "To view your memories:")) ;;
        print (Line "   1. Run: python start_server.py") ;;
        print (Line "   2. Open: http://localhost:8000/mymory.html") ;;
        print (Line (nl ++ "To add new bubbles:")) ;;
        print (Line "   1. Create folder: bubbles/YYYY-MM-DDTHH-MM-SS/") ;;
        print (Line "   2. Add config.json with title, description, has_photo, location (optional)") ;;
        print (Line "   3. Add photo file (optional)") ;;
        print (Line "   4. Run this script again")
      else
        print (Line "ERROR: Failed to generate bubbles.json")
  end.

(** Running a piece of the script from its start: nothing printed, no
    variable assigned. *)
Definition run {A} (m : M A) : (vars * list message) * ctrl A :=
  m ({| bubbles := []; written := [] |}, []).

End Scan.

(** ** [scan_bubbles_folder] when [print] can raise *)

Module Console.
Import Py Eff Scan.
Local Open Scope eff_scope.

(** The standard output: for a line, the exception that writing it raises
    (a [UnicodeEncodeError] for a text outside its encoding, an [OSError]
    for a closed pipe), if any. *)
Definition stdout : Type := message -> option exn.

(** The standard output that takes every line. *)
Definition quiet : stdout := fun _ => None.

(** [print(m)]: the line is written, or nothing is and the exception is
    raised. *)
Definition print (c : stdout) (m : message) : M unit :=
  match c m with
  | Some e => raise e
  | None => Eff.print m
  end.

(** Lines 65-98: the value of [photo_path]. *)
Definition find_photo (c : stdout) (fs : filesystem)
           (folder_name folder_path : string) (config : value) : M value :=
  has_photo <- lift (get config "has_photo" VNone) ;;
  if eq_str has_photo "True" then
    photo <- lift (get config "photo" VNone) ;;
    if truthy photo then
      photo <- lift (getitem config "photo") ;;
      photo_file <- lift (Path.join_value folder_path photo) ;;
      match photo with
      | VStr p =>
          if path_exists fs photo_file then
            ret (VStr ("bubbles/" ++ folder_name ++ "/" ++ p))
          else
            print c (Line ("WARNING: Photo '" ++ p ++ "' not found in '"
                             ++ folder_name ++ "'")) ;;
            ret (VStr ("bubbles/" ++ folder_name ++ "/" ++ p))
      | _ => (* not reached: [os.path.join] has raised *)
          raise (error TypeError "join() argument must be str")
      end
    else
      match detect_photo fs folder_path photo_extensions with
      | Some found_photo =>
          print c (Line ("INFO: Auto-detected photo '" ++ found_photo
                           ++ "' in '" ++ folder_name ++ "'")) ;;
          ret (VStr ("bubbles/" ++ folder_name ++ "/" ++ found_photo))
      | None =>
          print c (Line ("WARNING: No photo found in '" ++ folder_name
                           ++ "' despite has_photo=True")) ;;
          ret VNone
      end
  else ret VNone.

(** Lines 47-117: the body of the [try] statement. *)
Definition process_config (c : stdout) (fs : filesystem)
           (folder_name folder_path config_path : string) : M unit :=
  config <- lift (load_json fs config_path) ;;
  complete <- lift (all_in required_fields config) ;;
  if negb complete then
    print c (Line ("WARNING: Skipping '" ++ folder_name
                     ++ "' - missing required fields")) ;;
    continue
  else
    let date_str := Str.replace "-" "/" (Str.replace "T" " " folder_name) in
    parsed_date <-
      try_except (lift (Datetime.strptime date_str))
        [(ValueError, fun _ =>
            print c (Line ("WARNING: Skipping '" ++ folder_name
                             ++ "' - invalid date format")) ;;
            continue)] ;;
    photo_path <- find_photo c fs folder_name folder_path config ;;
    bs <- get_bubbles ;;
    title <- lift (getitem config "title") ;;
    description <- lift (getitem config "description") ;;
    location <- lift (get config "location" (VStr "")) ;;
    has_photo <- lift (get config "has_photo" VNone) ;;
    let bubble_data : dict :=
      [("id", VStr ("bubble-" ++ Str.of_nat (List.length bs)));
       ("title", title);
       ("description", description);
       ("location", location);
       ("photo", photo_path);
       ("date", VStr folder_name);
       ("folderName", VStr folder_name);
       ("hasPhoto", VBool (eq_str has_photo "True"));
       ("rawDate", VStr (Datetime.isoformat parsed_date));
       ("size", VInt 150);
       ("x", VInt 0);
       ("y", VInt 50)] in
    append bubble_data ;;
    title <- lift (getitem config "title") ;;
    print c (Added folder_name title).

(** Lines 33-122: the body of the loop over the folders.  The two
    warnings of lines 38 and 43 and the lines of the two handlers are
    printed outside the [try] statement. *)
Definition loop_body (c : stdout) (fs : filesystem)
           (bubbles_path folder_name : string) : M unit :=
  let folder_path := Path.join bubbles_path folder_name in
  let config_path := Path.join folder_path "config.json" in
  if negb (Re.match_folder_name folder_name) then
    print c (Line ("WARNING: Skipping '" ++ folder_name ++ "' - invalid format")) ;;
    continue
  else if negb (path_exists fs config_path) then
    print c (Line ("WARNING: Skipping '" ++ folder_name
                     ++ "' - no config.json found")) ;;
    continue
  else
    try_except (process_config c fs folder_name folder_path config_path)
      [(JSONDecodeError, fun e =>
          print c (Line ("ERROR: Error parsing config.json in '" ++ folder_name
                           ++ "': " ++ str_of e)));
       (Exception, fun e =>
          print c (Line ("ERROR: Error processing '" ++ folder_name ++ "': "
                           ++ str_of e)))].

Definition scan_bubbles_folder (c : stdout) (fs : filesystem)
           (bubbles_path : string) : M (list dict) :=
  set_bubbles [] ;;
  if negb (path_exists fs bubbles_path) then
    print c (Line ("ERROR: Bubbles folder '" ++ bubbles_path ++ "' not found!")) ;;
    get_bubbles
  else
    names <- lift (listdir fs bubbles_path) ;;
    let folders :=
      sort (filter (fun f => path_isdir fs (Path.join bubbles_path f)) names) in
    print c (Line ("Found " ++ Str.of_nat (List.length folders) ++ " bubble folders:")) ;;
    for_each folders (loop_body c fs bubbles_path) ;;
    get_bubbles.

Definition run {A} (m : M A) : (vars * list message) * ctrl A := Scan.run m.

End Console.

(** ** [start_server.py] *)

Module Server.
Import Py Eff.
Local Open Scope eff_scope.

(** What happens when the script calls the operating system: for each
    call the exception it raises, if any. *)
Record environment : Type := {
  script_dir : string;          (* str(Path(__file__).parent) *)
  chdir : option exn;           (* os.chdir(script_dir) *)
  bind_socket : option exn;     (* socketserver.TCPServer(("", PORT), Handler) *)
  open_browser : option exn;    (* webbrowser.open(...) *)
  serve_forever : option exn    (* httpd.serve_forever(): the exception that
                                   ends it; [None] when nothing ever does *)
}.

Definition M : Type -> Type := Eff.M unit.

Definition call (r : option exn) : M unit :=
  match r with Some e => raise e | None => ret tt end.

Definition PORT : Z := 8000.

Definition nl : string := String Str.newline "".

(** The bullet of the four lines that list the pages, in UTF-8. *)
Definition bullet : string :=
  String (ascii_of_nat 226) (String (ascii_of_nat 128)
    (String (ascii_of_nat 162) "")).

Definition rule : string := String.concat "" (repeat "=" 50).

Definition url (page : string) : string :=
  "http://localhost:" ++ Str.of_Z PORT ++ page.

(** Lines 24-53: the body of the [with] statement. *)
Definition serve (env : environment) : M unit :=
  print (Line rule) ;;
  print (Line "Mymory Local Server") ;;
  print (Line rule) ;;
  print (Line ("Server running at: " ++ url "")) ;;
  print (Line ("Serving directory: " ++ script_dir env)) ;;
  print (Line "") ;;
  print (Line "Your files:") ;;
  print (Line ("  " ++ bullet ++ " Main page: " ++ url "/index.html")) ;;
  print (Line ("  " ++ bullet ++ " Memories: " ++ url "/mymory.html")) ;;
  print (Line ("  " ++ bullet ++ " Goals: " ++ url "/goals.html")) ;;
  print (Line ("  " ++ bullet ++ " Bitcoin: " ++ url "/bitcoin.html")) ;;
  print (Line "") ;;
  print (Line "To update bubbles:") ;;
  print (Line "  1. Create new bubble folders") ;;
  print (Line "  2. Run: python scan_bubbles.py") ;;
  print (Line "  3. Refresh browser") ;;
  print (Line "") ;;
  print (Line "Press Ctrl+C to stop the server") ;;
  print (Line rule) ;;
  try_except
    (call (open_browser env) ;;
     print (Line "Browser opened automatically!"))
    [(BaseException, fun _ =>
        print (Line "Could not open browser automatically") ;;
        print (Line "   Please open: http://localhost:8000/index.html"))] ;;
  print (Line "") ;;
  match serve_forever env with
  | Some e => raise e
  | None => forever
  end.

Definition start_server (env : environment) : M unit :=
  call (chdir env) ;;
  try_except
    (call (bind_socket env) ;;
     serve env)
    [(KeyboardInterrupt, fun _ =>
        print (Line (nl ++ nl ++ "Server stopped. Goodbye!")));
     (OSError, fun e =>
        match errno e with
        | Some 98%Z =>
            print (Line ("ERROR: Port " ++ Str.of_Z PORT ++ " is already in use!")) ;;
            print (Line "   Try closing other applications or use a different port.")
        | _ =>
            print (Line ("ERROR: Error starting server: " ++ str_of e))
        end)].

Definition run {A} (m : M A) : list message * ctrl A :=
  let '((_, out), r) := m (tt, []) in (out, r).

End Server.


(** * Vocabulary of the properties *)

Import Py Eff.

(** The variables of the scanner together with what it has printed. *)
Definition world : Type := (Scan.vars * list message)%type.

(** [config_path] and [date_str], as the loop body computes them. *)
Definition config_path (bubbles_path folder_name : string) : string :=
  Path.join (Path.join bubbles_path folder_name) "config.json".

Definition date_str (folder_name : string) : string :=
  Str.replace "-" "/" (Str.replace "T" " " folder_name).

(** The variables after [bubbles.append(b)]. *)
Definition appended (st : Scan.vars) (b : dict) : Scan.vars :=
  {| Scan.bubbles := (Scan.bubbles st ++ [b])%list;
     Scan.written := Scan.written st |}.

(** [config.get(k)] on a dict. *)
Definition lookup (k : string) (d : dict) : value :=
  match dict_get k d with Some v => v | None => VNone end.

(** The three required keys are keys of [d]. *)
Definition complete (d : dict) : bool :=
  dict_mem "title" d && dict_mem "description" d && dict_mem "has_photo" d.

(** The record of lines 101-114, for the dict [d] of the configuration,
    [n] records before it, the photo [photo_path] and the date [dt]. *)
Definition bubble_data (n : nat) (folder_name : string) (d : dict)
           (photo_path : value) (dt : Datetime.datetime) : dict :=
  [("id", VStr ("bubble-" ++ Str.of_nat n));
   ("title", lookup "title" d);
   ("description", lookup "description" d);
   ("location", match dict_get "location" d with Some v => v | None => VStr "" end);
   ("photo", photo_path);
   ("date", VStr folder_name);
   ("folderName", VStr folder_name);
   ("hasPhoto", VBool (eq_str (lookup "has_photo" d) "True"));
   ("rawDate", VStr (Datetime.isoformat dt));
   ("size", VInt 150);
   ("x", VInt 0);
   ("y", VInt 50)].

(** One of the tests [field in config] of the validation is false; for a
    JSON object this says that one of the three keys is not there. *)
Definition lacks_required_key (config : value) : Prop :=
  Scan.all_in Scan.required_fields config = inr false.

Definition is_str (v : value) : bool :=
  match v with VStr _ => true | _ => false end.

(** The photo named by the configuration can be joined to a path: when
    [has_photo] is ["True"] and [photo] is set, [photo] is a string. *)
Definition photo_usable (d : dict) : bool :=
  negb (eq_str (lookup "has_photo" d) "True" && truthy (lookup "photo" d))
  || is_str (lookup "photo" d).

(** A printed line that starts with [WARNING:] or with [ERROR:]. *)
Definition is_warning (m : message) : bool :=
  match m with
  | Line s => Str.startswith "WARNING:" s
  | Added _ _ => false
  end.

Definition is_error (m : message) : bool :=
  match m with
  | Line s => Str.startswith "ERROR:" s
  | Added _ _ => false
  end.

(** The line the loop body prints for the exception [e] it catches. *)
Definition error_line (folder_name : string) (e : exn) : string :=
  if isinstance e JSONDecodeError
  then "ERROR: Error parsing config.json in '" ++ folder_name ++ "': " ++ str_of e
  else "ERROR: Error processing '" ++ folder_name ++ "': " ++ str_of e.

(** The loop of [scan_bubbles_folder] over a list of folders. *)
Definition scan_loop (fs : Scan.filesystem) (bubbles_path : string)
           (folders : list string) : Scan.M unit :=
  for_each folders (Scan.loop_body fs bubbles_path).

(** Where the exceptions of the file system are ordinary ones (instances of
    [Exception], which a keyboard interrupt is not). *)
Definition ordinary_errors (fs : Scan.filesystem) : Prop :=
  forall p e, Scan.load_json fs p = inl e -> isinstance e Exception = true.

(** A piece of code that only adds to what is printed: run after [out], it
    does what it does after nothing, and prints it after [out]. *)
Definition out_frame {S A : Type} (m : Eff.M S A) : Prop :=
  forall s out,
    m (s, out) = (let '((s', o), r) := m (s, []) in ((s', (out ++ o)%list), r)).

(** The record [b] is the one the loop body builds for the folder [f] when
    [n] records are there already. *)
Definition produced (fs : Scan.filesystem) (bubbles_path : string) (n : nat)
           (f : string) (b : dict) : Prop :=
  exists d dt photo_path,
    Re.match_folder_name f = true
    /\ Scan.load_json fs (config_path bubbles_path f) = inr (VDict d)
    /\ complete d = true
    /\ Datetime.strptime (date_str f) = inr dt
    /\ b = bubble_data n f d photo_path dt.

(** The records [bs] are the ones built, in this order, for the folders
    [fl], the first of them when [n] records are there already. *)
Inductive produced_from (fs : Scan.filesystem) (bubbles_path : string)
  : nat -> list string -> list dict -> Prop :=
| produced_nil n : produced_from fs bubbles_path n [] []
| produced_cons n f b fl bs :
    produced fs bubbles_path n f b ->
    produced_from fs bubbles_path (S n) fl bs ->
    produced_from fs bubbles_path n (f :: fl) (b :: bs).

(** [l] is [l'] with some elements left out. *)
Inductive Subseq {A : Type} : list A -> list A -> Prop :=
| Subseq_nil : Subseq [] []
| Subseq_skip x l l' : Subseq l l' -> Subseq l (x :: l')
| Subseq_keep x l l' : Subseq l l' -> Subseq (x :: l) (x :: l').

Definition string_le (a b : string) : Prop := Str.leb a b = true.

(** The field [x] of a record, when it is a number. *)
Definition x_of (b : dict) : option Q :=
  match dict_get "x" b with
  | Some (VFloat (FNum q)) => Some q
  | Some (VInt z) => Some (inject_Z z)
  | _ => None
  end.

(** The fields of a record of [bubbles.json], in the order of the file. *)
Definition output_fields : list string :=
  ["id"; "title"; "description"; "location"; "photo"; "date"; "folderName";
   "hasPhoto"; "rawDate"; "size"; "x"; "y"].

(** The position computed for the index [i] when the last index is [d]:
    [10 + ((i / d) * 80)], each operation rounded. *)
Definition position_of (i d : Z) : Q :=
  Float.int_add 10 (Float.mul_int (Float.truediv i d) 80).

(** The position of the record of index [i] among [n] records. *)
Definition position (n i : nat) : Q :=
  position_of (Z.of_nat i) (Z.max 1 (Z.of_nat n - 1)).

(** The loop body appends a record for the folder [f]: its name is a
    timestamp in form, its [config.json] is there and loads as an object
    with the three required keys and a usable photo, and [strptime] accepts
    the date. *)
Definition accepts (fs : Scan.filesystem) (bubbles_path f : string) : bool :=
  Re.match_folder_name f
  && Scan.path_exists fs (config_path bubbles_path f)
  && match Scan.load_json fs (config_path bubbles_path f) with
     | inr (VDict d) =>
         complete d && photo_usable d
         && match Datetime.strptime (date_str f) with
            | inr _ => true
            | inl _ => false
            end
     | _ => false
     end.

(** The folders the loop of [scan_bubbles_folder] runs over: the
    directories among [names], sorted. *)
Definition sorted_folders (fs : Scan.filesystem) (bubbles_path : string)
           (names : list string) : list string :=
  Scan.sort (filter (fun f => Scan.path_isdir fs (Path.join bubbles_path f)) names).

(** The folders of [bubbles_path] that are accepted, in the order of the
    loop. *)
Definition accepted_folders (fs : Scan.filesystem) (bubbles_path : string)
  : list string :=
  if Scan.path_exists fs bubbles_path then
    match Scan.listdir fs bubbles_path with
    | inr names => filter (accepts fs bubbles_path) (sorted_folders fs bubbles_path names)
    | inl _ => []
    end
  else [].

(** The loop of [Console.scan_bubbles_folder] over a list of folders. *)
Definition console_loop (c : Console.stdout) (fs : Scan.filesystem)
           (bubbles_path : string) (folders : list string) : Scan.M unit :=
  for_each folders (Console.loop_body c fs bubbles_path).

(** The standard output takes every line. *)
Definition takes_every_line (c : Console.stdout) : Prop := forall m, c m = None.

(** Two pieces of code that do the same. *)
Definition same {S A : Type} (m m' : Eff.M S A) : Prop := forall w, m w = m' w.

(** Two lists of [except] clauses with the same classes and handlers that
    do the same. *)
Definition same_handlers {S A : Type}
           (hs hs' : list (cls * (exn -> Eff.M S A))) : Prop :=
  Forall2 (fun h h' => fst h = fst h' /\ forall e, same (snd h e) (snd h' e))
          hs hs'.

(** * Sample inputs *)

Definition no_vars : Scan.vars := {| Scan.bubbles := []; Scan.written := [] |}.

Definition sample_config : dict :=
  [("title", VStr "Sea"); ("description", VStr "A day at the sea");
   ("has_photo", VStr "False")].

Definition file_not_found : exn :=
  mkExn OSError (Some 2%Z) "[Errno 2] No such file or directory".

(** A file system with the folders [names] under [bubbles], the given
    contents of their [config.json], and every path there but [missing]. *)
Definition sample_fs (names : list string) (configs : list (string * (exn + value)))
           (missing : list string) : Scan.filesystem :=
  {| Scan.path_exists := fun p => negb (existsb (String.eqb p) missing);
     Scan.path_isdir := fun _ => true;
     Scan.listdir := fun _ => inr names;
     Scan.load_json := fun p =>
       match find (fun c => String.eqb (config_path "bubbles" (fst c)) p) configs with
       | Some c => snd c
       | None => inl file_not_found
       end;
     Scan.dump_json := fun _ => None |}.

Definition day_2024_01_15 : Datetime.datetime :=
  Datetime.mkDatetime 2024 1 15 10 30 0.



Definition incomplete_config : dict :=
  [("title", VStr "Sea"); ("has_photo", VStr "True")].

Definition fs_incomplete : Scan.filesystem :=
  sample_fs ["2024-01-15T10-30-00"; "2024-02-01T08-00-00"]
            [("2024-01-15T10-30-00", inr (VDict incomplete_config));
             ("2024-02-01T08-00-00", inr (VDict sample_config))] [].

Definition bad_json : exn :=
  mkExn JSONDecodeError None "Expecting value: line 1 column 1 (char 0)".

Definition fs_bad_json : Scan.filesystem :=
  sample_fs ["2024-01-15T10-30-00"; "2024-02-01T08-00-00"]
            [("2024-01-15T10-30-00", inl bad_json);
             ("2024-02-01T08-00-00", inr (VDict sample_config))] [].

Definition config_bool_true : dict :=
  [("title", VStr "Sea"); ("description", VStr "A day at the sea");
   ("has_photo", VBool true); ("photo", VStr "sea.jpg")].

Definition fs_bool_true : Scan.filesystem :=
  sample_fs ["2024-01-15T10-30-00"]
            [("2024-01-15T10-30-00", inr (VDict config_bool_true))] [].

Definition config_photo : dict :=
  [("title", VStr "Sea"); ("description", VStr "A day at the sea");
   ("has_photo", VStr "True"); ("photo", VStr "sea.jpg")].

(** The photo the configuration names is not in the folder. *)
Definition fs_photo_missing : Scan.filesystem :=
  sample_fs ["2024-01-15T10-30-00"]
            [("2024-01-15T10-30-00", inr (VDict config_photo))]
            ["bubbles/2024-01-15T10-30-00/sea.jpg"].

(** Two folders, listed by the file system in the other order. *)
Definition fs_two_days : Scan.filesystem :=
  sample_fs ["2024-02-01T08-00-00"; "2024-01-15T10-30-00"]
            [("2024-01-15T10-30-00", inr (VDict sample_config));
             ("2024-02-01T08-00-00", inr (VDict config_photo))] [].

Definition scan_two_days : world * ctrl (list dict) :=
  Scan.run (Scan.scan_bubbles_folder fs_two_days "bubbles").

Definition main_two_days : world * ctrl unit := Scan.run (Scan.main fs_two_days).

(** The array that [main] writes for these two folders, and its first
    record. *)
Definition array_two_days : list dict :=
  match Scan.written (fst (fst main_two_days)) with
  | (_, arr) :: _ => arr
  | [] => []
  end.

Definition first_record_two_days : dict := hd [] array_two_days.

Definition three_records : list dict :=
  [bubble_data 0 "2024-01-15T10-30-00" sample_config VNone day_2024_01_15;
   bubble_data 1 "2024-01-15T10-30-00" sample_config VNone day_2024_01_15;
   bubble_data 2 "2024-01-15T10-30-00" sample_config VNone day_2024_01_15].

Definition port_in_use : exn :=
  mkExn OSError (Some 98%Z) "[Errno 98] Address already in use".

Definition env_port_in_use : Server.environment :=
  {| Server.script_dir := "/home/me/mymories";
     Server.chdir := None;
     Server.bind_socket := Some port_in_use;
     Server.open_browser := None;
     Server.serve_forever := None |}.

(** A text of code points below 128. *)
Definition is_ascii (s : string) : bool :=
  forallb (fun ch => (Str.code ch <? 128)%nat) (list_ascii_of_string s).

Definition cannot_encode : exn :=
  error UnicodeEncodeError "'ascii' codec can't encode character".

(** A standard output in the encoding ASCII. *)
Definition ascii_stdout : Console.stdout := fun m =>
  match m with
  | Line s => if is_ascii s then None else Some cannot_encode
  | Added f _ => if is_ascii f then None else Some cannot_encode
  end.

(** The name [caf] followed by the code point 233. *)
Definition cafe : string := "caf" ++ String (ascii_of_nat 233) "".

(** A valid folder and a folder whose name is no timestamp and no ASCII. *)
Definition fs_cafe : Scan.filesystem :=
  sample_fs ["2024-01-15T10-30-00"; cafe]
            [("2024-01-15T10-30-00", inr (VDict sample_config))] [].

Definition interrupt : exn := mkExn KeyboardInterrupt None "".

(** The user interrupts the reading of the first [config.json]. *)
Definition fs_interrupted : Scan.filesystem :=
  sample_fs ["2024-01-15T10-30-00"; "2024-02-01T08-00-00"]
            [("2024-01-15T10-30-00", inl interrupt);
             ("2024-02-01T08-00-00", inr (VDict sample_config))] [].

Definition permission_denied : exn :=
  mkExn OSError (Some 13%Z) "[Errno 13] Permission denied: 'bubbles'".

(** The folder is there and cannot be listed. *)
Definition fs_unreadable : Scan.filesystem :=
  {| Scan.path_exists := fun _ => true;
     Scan.path_isdir := fun _ => true;
     Scan.listdir := fun _ => inl permission_denied;
     Scan.load_json := fun _ => inr (VDict sample_config);
     Scan.dump_json := fun _ => None |}.


(** * Properties *)

(** ** The server: a failure to bind the socket *)

Lemma OSError_not_interrupt (e : exn) :
  isinstance e OSError = true -> isinstance e KeyboardInterrupt = false.
Proof.
  destruct e as [c n s]; unfold isinstance; cbn.
  destruct c; cbn; congruence.
Qed.

(** C7. When the construction of the server socket raises an [OSError],
    [start_server] does not raise: it prints the two lines about the port in
    use when the [errno] is 98 and the line with the error otherwise, and it
    returns, which ends the process. *)
Theorem start_server_bind_error (env : Server.environment) (e : exn) :
  Server.chdir env = None ->
  Server.bind_socket env = Some e ->
  isinstance e OSError = true ->
  Server.run (Server.start_server env) =
    (match errno e with
     | Some 98%Z =>
         [Line "ERROR: Port 8000 is already in use!";
          Line "   Try closing other applications or use a different port."]
     | _ => [Line ("ERROR: Error starting server: " ++ str_of e)]
     end, Normal tt).
Proof.
  intros Hc Hb Hi.
  unfold Server.run, Server.start_server, Server.call, bind, try_except.
  rewrite Hc, Hb. cbn -[isinstance].
  rewrite (OSError_not_interrupt e Hi), Hi. cbn.
  destruct (errno e) as [z|]; [|reflexivity].
  destruct z as [|p|p]; try reflexivity.
  do 7 (destruct p; try reflexivity).
Qed.

Lemma start_server_bind_error_witness :
  Server.run (Server.start_server env_port_in_use) =
    ([Line "ERROR: Port 8000 is already in use!";
      Line "   Try closing other applications or use a different port."],
     Normal tt).
Proof.
  apply (start_server_bind_error env_port_in_use port_in_use); reflexivity.
Defined.

(** ** The scanner: what one folder does *)

Import Scan.

Ltac destruct_inner x :=
  lazymatch x with
  | context [match ?y with _ => _ end] => destruct_inner y
  | _ => let E := fresh "E" in destruct x eqn:E
  end.

Ltac break_match_hyp H :=
  match type of H with
  | context [match ?x with _ => _ end] => destruct_inner x
  end.

Ltac step_cbn H :=
  cbn -[eq_str truthy detect_photo photo_extensions String.append
        Datetime.strptime Datetime.isoformat Str.of_nat find_photo
        Str.contains isinstance Re.match_folder_name Path.join
        process_config Str.startswith] in H.

Ltac step_mem H := step_cbn H; unfold dict_mem in H; step_cbn H.

Ltac crunch H := repeat (break_match_hyp H; step_cbn H; try discriminate).

Lemma strptime_raises_ValueError (s : string) (e : exn) :
  Datetime.strptime s = inl e -> class_of e = ValueError.
Proof.
  unfold Datetime.strptime. intros H.
  repeat (break_match_hyp H; try discriminate);
    inversion H; reflexivity.
Qed.

(** The four ways [find_photo] can go on a dict. *)
Lemma find_photo_cases fs f fp d st out w' r :
  find_photo fs f fp (VDict d) (st, out) = (w', r) ->
  fst w' = st /\
  ((eq_str (lookup "has_photo" d) "True" = false
    /\ r = Normal VNone /\ snd w' = out)
   \/ (eq_str (lookup "has_photo" d) "True" = true
       /\ truthy (lookup "photo" d) = true
       /\ exists p, lookup "photo" d = VStr p
          /\ r = Normal (VStr ("bubbles/" ++ f ++ "/" ++ p))
          /\ snd w' = if path_exists fs (Path.join fp p) then out
                      else (out ++ [Line ("WARNING: Photo '" ++ p
                                            ++ "' not found in '" ++ f ++ "'")])%list)
   \/ (eq_str (lookup "has_photo" d) "True" = true
       /\ truthy (lookup "photo" d) = true
       /\ is_str (lookup "photo" d) = false
       /\ snd w' = out
       /\ exists e, r = Raise e /\ class_of e = TypeError)
   \/ (eq_str (lookup "has_photo" d) "True" = true
       /\ truthy (lookup "photo" d) = false
       /\ match detect_photo fs fp photo_extensions with
          | Some found =>
              r = Normal (VStr ("bubbles/" ++ f ++ "/" ++ found))
              /\ snd w' = (out ++ [Line ("INFO: Auto-detected photo '" ++ found
                                           ++ "' in '" ++ f ++ "'")])%list
          | None =>
              r = Normal VNone
              /\ snd w' = (out ++ [Line ("WARNING: No photo found in '" ++ f
                                           ++ "' despite has_photo=True")])%list
          end)).
Proof.
  unfold find_photo, bind, lift, get, getitem, Path.join_value, ret, raise,
    print, lookup.
  intros H. step_cbn H.
  destruct (dict_get "has_photo" d) as [hp|] eqn:Ehp; step_cbn H.
  2:{ inversion H; subst. split; [reflexivity|]. left. auto. }
  destruct (eq_str hp "True") eqn:Ehpt; step_cbn H.
  2:{ inversion H; subst. split; [reflexivity|]. left. auto. }
  destruct (dict_get "photo" d) as [ph|] eqn:Eph; step_cbn H.
  - destruct (truthy ph) eqn:Etr; step_cbn H.
    + destruct ph; step_cbn H;
        try (inversion H; subst; split; [reflexivity|];
             right; right; left; cbn; repeat split; eauto).
      destruct (path_exists fs (Path.join fp s)) eqn:Eex; step_cbn H;
        inversion H; subst; (split; [reflexivity|]);
        right; left; (split; [reflexivity|split; [reflexivity|]]);
        exists s; rewrite Eex; repeat split; reflexivity.
    + destruct (detect_photo fs fp photo_extensions) eqn:Edet; step_cbn H;
        inversion H; subst; (split; [reflexivity|]);
        right; right; right; cbn; auto.
  - cbn [truthy] in H. step_cbn H.
    destruct (detect_photo fs fp photo_extensions) eqn:Edet; step_cbn H;
      inversion H; subst; (split; [reflexivity|]);
      right; right; right; cbn; auto.
Qed.

Lemma find_photo_not_dict fs f fp config w :
  (forall d, config <> VDict d) ->
  exists e, find_photo fs f fp config w = (w, Raise e)
            /\ class_of e = AttributeError.
Proof.
  intros Hd. unfold find_photo, bind, lift, get.
  destruct config; try (eexists; split; reflexivity).
  exfalso. eapply Hd. reflexivity.
Qed.

Lemma class_Exception (e : exn) (c : cls) :
  class_of e = c -> issubclass c Exception = true ->
  isinstance e Exception = true.
Proof. intros <- H. exact H. Qed.

(** The three ways the body of the [try] statement can go: a folder skipped
    with a warning, an exception, a record appended. *)
Lemma process_config_inv fs f fp cp st out st' out' r :
  process_config fs f fp cp (st, out) = ((st', out'), r) ->
  (st' = st /\ r = Continue
   /\ exists m, out' = (out ++ [Line m])%list /\ Str.startswith "WARNING:" m = true)
  \/ (st' = st /\ out' = out
      /\ exists e, r = Raise e
         /\ (load_json fs cp = inl e \/ isinstance e Exception = true))
  \/ (r = Normal tt /\
      exists d dt photo_path out1,
        load_json fs cp = inr (VDict d) /\ complete d = true /\
        Datetime.strptime (date_str f) = inr dt /\
        find_photo fs f fp (VDict d) (st, out) = ((st, out1), Normal photo_path) /\
        st' = appended st (bubble_data (List.length (bubbles st)) f d photo_path dt) /\
        out' = (out1 ++ [Added f (lookup "title" d)])%list).
Proof.
  unfold process_config, bind, lift, try_except, get_bubbles, append, read,
    write, ret, raise, print, continue.
  intros H. step_cbn H. fold (date_str f) in H.
  destruct (load_json fs cp) as [e|config] eqn:Hload; step_cbn H.
  { inversion H; subst. right; left. eauto 10. }
  assert (Hnd : (forall d, config <> VDict d) ->
                forall w, exists e, find_photo fs f fp config w = (w, Raise e)
                                    /\ isinstance e Exception = true).
  { intros Hd w. destruct (find_photo_not_dict fs f fp config w Hd) as (e & He & Hc).
    exists e. split; [exact He|]. eapply class_Exception; [exact Hc|reflexivity]. }
  destruct config.
  7:{ clear Hnd. step_mem H.
      destruct (dict_get "title" d) as [title|] eqn:Et; step_mem H.
      2:{ inversion H; subst. left. repeat split. eexists. split; reflexivity. }
      destruct (dict_get "description" d) as [descr|] eqn:Ed; step_mem H.
      2:{ inversion H; subst. left. repeat split. eexists. split; reflexivity. }
      destruct (dict_get "has_photo" d) as [hp|] eqn:Eh; step_mem H.
      2:{ inversion H; subst. left. repeat split. eexists. split; reflexivity. }
      destruct (Datetime.strptime (date_str f)) as [e|dt] eqn:Edt; step_cbn H.
      { apply strptime_raises_ValueError in Edt.
        unfold isinstance in H. rewrite Edt in H. step_cbn H.
        inversion H; subst. left. repeat split. eexists. split; reflexivity. }
      destruct (find_photo fs f fp (VDict d) (st, out)) as [[st1 out1] r1] eqn:Ef.
      pose proof (find_photo_cases _ _ _ _ _ _ _ _ Ef) as [Hst Hc].
      cbn in Hst. subst st1.
      destruct r1 as [v| |e|]; step_cbn H.
      - inversion H; subst. right; right. split; [reflexivity|].
        exists d, dt, v, out1.
        assert (Hcomp : complete d = true).
        { unfold complete, dict_mem. rewrite Et, Ed, Eh. reflexivity. }
        repeat split; try assumption.
        + unfold appended, bubble_data, lookup. rewrite Et, Ed, Eh. reflexivity.
        + unfold lookup. rewrite Et. reflexivity.
      - exfalso. destruct Hc as [(_ & Hr & _)|[(_ & _ & p & _ & Hr & _)|
          [(_ & _ & _ & _ & e & Hr & _)|(_ & _ & Hr)]]]; try discriminate.
        destruct (detect_photo fs fp photo_extensions); destruct Hr; discriminate.
      - destruct Hc as [(_ & Hr & _)|[(_ & _ & p & _ & Hr & _)|
          [(_ & _ & _ & Ho & e' & Hr & Hcl)|(_ & _ & Hr)]]]; try discriminate.
        + cbn in Ho. inversion Hr; subst e'. inversion H; subst.
          right; left. repeat split. exists e. split; [reflexivity|right].
          eapply class_Exception; [exact Hcl|reflexivity].
        + destruct (detect_photo fs fp photo_extensions); destruct Hr; discriminate.
      - exfalso. destruct Hc as [(_ & Hr & _)|[(_ & _ & p & _ & Hr & _)|
          [(_ & _ & _ & _ & e & Hr & _)|(_ & _ & Hr)]]]; try discriminate.
        destruct (detect_photo fs fp photo_extensions); destruct Hr; discriminate. }
  all: try (inversion H; subst; right; left; repeat split; eexists;
            split; [reflexivity|right; reflexivity]).
  all: crunch H.
  all: try (inversion H; subst; left; repeat split; eexists; split; reflexivity).
  all: try match goal with
           | Es : Datetime.strptime _ = inl ?e,
             Ei : isinstance ?e ValueError = false |- _ =>
               apply strptime_raises_ValueError in Es; unfold isinstance in Ei;
               rewrite Es in Ei; discriminate
           end.
  all: match goal with
       | E : find_photo _ _ _ ?c ?w = _ |- _ =>
           let e := fresh "e" in let He := fresh "He" in let Hi := fresh "Hi" in
           destruct (Hnd ltac:(intros; discriminate) w) as (e & He & Hi);
           rewrite He in E; inversion E; subst; try discriminate
       end.
  all: inversion H; subst; right; left; repeat split; eexists; split;
    [reflexivity|right; assumption].
Qed.

Lemma isinstance_JSONDecodeError_Exception (e : exn) :
  isinstance e JSONDecodeError = true -> isinstance e Exception = true.
Proof.
  destruct e as [c n s]; unfold isinstance; cbn.
  destruct c; cbn; congruence.
Qed.

(** The four ways the loop body can go: a folder skipped with a warning, an
    exception caught and reported, an exception that is not an [Exception]
    and escapes, a record appended. *)
Lemma loop_body_inv fs path f st out st' out' r :
  loop_body fs path f (st, out) = ((st', out'), r) ->
  (st' = st /\ r = Continue
   /\ exists m, out' = (out ++ [Line m])%list /\ Str.startswith "WARNING:" m = true)
  \/ (st' = st /\ r = Normal tt
      /\ (exists m, out' = (out ++ [Line m])%list /\ Str.startswith "ERROR:" m = true)
      /\ exists e, process_config fs f (Path.join path f) (config_path path f) (st, out)
                   = ((st, out), Raise e))
  \/ (st' = st /\ out' = out
      /\ exists e, r = Raise e /\ load_json fs (config_path path f) = inl e
                   /\ isinstance e Exception = false)
  \/ (r = Normal tt
      /\ Re.match_folder_name f = true
      /\ path_exists fs (config_path path f) = true
      /\ exists d dt photo_path out1,
        load_json fs (config_path path f) = inr (VDict d) /\ complete d = true /\
        Datetime.strptime (date_str f) = inr dt /\
        find_photo fs f (Path.join path f) (VDict d) (st, out)
          = ((st, out1), Normal photo_path) /\
        st' = appended st (bubble_data (List.length (bubbles st)) f d photo_path dt) /\
        out' = (out1 ++ [Added f (lookup "title" d)])%list).
Proof.
  unfold loop_body. fold (config_path path f).
  destruct (Re.match_folder_name f) eqn:Hm; cbn [negb].
  2:{ unfold bind, print, continue. cbn. intros H. inversion H; subst.
      left. repeat split. eexists. split; reflexivity. }
  destruct (path_exists fs (config_path path f)) eqn:Hx; cbn [negb].
  2:{ unfold bind, print, continue. cbn. intros H. inversion H; subst.
      left. repeat split. eexists. split; reflexivity. }
  unfold try_except.
  destruct (process_config fs f (Path.join path f) (config_path path f) (st, out))
    as [[st1 out1] r1] eqn:Hp.
  pose proof (process_config_inv _ _ _ _ _ _ _ _ _ Hp) as Hinv.
  destruct Hinv as [(Hs & Hr & m & Ho & Hw)|[(Hs & Ho & e & Hr & He)|
    (Hr & d & dt & photo_path & out2 & Hl & Hc & Hd & Hf & Hs & Ho)]]; subst.
  - intros H; inversion H; subst. left. eauto 10.
  - cbn -[isinstance String.append].
    destruct (isinstance e JSONDecodeError) eqn:Hj.
    + cbn. unfold print. cbn. intros H; inversion H; subst.
      right; left. repeat split; [|eauto]. eexists. split; reflexivity.
    + cbn -[isinstance String.append].
      destruct (isinstance e Exception) eqn:Hex.
      * cbn. unfold print. cbn. intros H; inversion H; subst.
        right; left. repeat split; [|eauto]. eexists. split; reflexivity.
      * cbn. intros H; inversion H; subst. right; right; left.
        repeat split. exists e. destruct He as [He|He]; [auto|congruence].
  - intros H; inversion H; subst. right; right; right.
    repeat split; try assumption. exists d, dt, photo_path, out2. auto 10.
Qed.

(** ** What is printed does not influence what is done *)

Section Frame.
Context {S : Type}.

Lemma frame_ret {A} (a : A) : out_frame (ret a : Eff.M S A).
Proof. intros s out. cbn. now rewrite app_nil_r. Qed.

Lemma frame_print (m : message) : out_frame (print m : Eff.M S unit).
Proof. intros s out. reflexivity. Qed.

Lemma frame_continue {A} : out_frame (continue : Eff.M S A).
Proof. intros s out. cbn. now rewrite app_nil_r. Qed.

Lemma frame_raise {A} (e : exn) : out_frame (raise e : Eff.M S A).
Proof. intros s out. cbn. now rewrite app_nil_r. Qed.

Lemma frame_forever {A} : out_frame (forever : Eff.M S A).
Proof. intros s out. cbn. now rewrite app_nil_r. Qed.

Lemma frame_read : out_frame (read : Eff.M S S).
Proof. intros s out. cbn. now rewrite app_nil_r. Qed.

Lemma frame_write (s0 : S) : out_frame (write s0 : Eff.M S unit).
Proof. intros s out. cbn. now rewrite app_nil_r. Qed.

Lemma frame_lift {A} (r : exn + A) : out_frame (lift r : Eff.M S A).
Proof. destruct r; [apply frame_raise|apply frame_ret]. Qed.

Lemma frame_bind {A B} (m : Eff.M S A) (f : A -> Eff.M S B) :
  out_frame m -> (forall a, out_frame (f a)) -> out_frame (bind m f).
Proof.
  intros Hm Hf s out. unfold bind. rewrite (Hm s out).
  destruct (m (s, [])) as [[s1 o1] r1]. destruct r1 as [a| |e|].
  - rewrite (Hf a s1 (out ++ o1)%list), (Hf a s1 o1).
    destruct (f a (s1, [])) as [[s2 o2] r2]. now rewrite app_assoc.
  - reflexivity.
  - reflexivity.
  - reflexivity.
Qed.

Lemma frame_try_except {A} (m : Eff.M S A) (handlers : list (cls * (exn -> Eff.M S A))) :
  out_frame m ->
  Forall (fun h => forall e, out_frame (snd h e)) handlers ->
  out_frame (try_except m handlers).
Proof.
  intros Hm Hh s out. unfold try_except. rewrite (Hm s out).
  destruct (m (s, [])) as [[s1 o1] r1]. destruct r1 as [a| |e|]; try reflexivity.
  destruct (find (fun h => isinstance e (fst h)) handlers) as [h|] eqn:Hf;
    [|reflexivity].
  apply find_some in Hf. destruct Hf as [Hin _].
  rewrite Forall_forall in Hh. specialize (Hh h Hin e).
  rewrite (Hh s1 (out ++ o1)%list), (Hh s1 o1).
  destruct (snd h e (s1, [])) as [[s2 o2] r2]. now rewrite app_assoc.
Qed.

Lemma frame_for_each {X} (xs : list X) (body : X -> Eff.M S unit) :
  (forall x, out_frame (body x)) -> out_frame (for_each xs body).
Proof.
  intros Hb. induction xs as [|x xs IH]; [apply frame_ret|].
  intros s out. cbn. rewrite (Hb x s out).
  destruct (body x (s, [])) as [[s1 o1] r1].
  destruct r1 as [a| |e|]; try reflexivity.
  - rewrite (IH s1 (out ++ o1)%list), (IH s1 o1).
    destruct (for_each xs body (s1, [])) as [[s2 o2] r2]. now rewrite app_assoc.
  - rewrite (IH s1 (out ++ o1)%list), (IH s1 o1).
    destruct (for_each xs body (s1, [])) as [[s2 o2] r2]. now rewrite app_assoc.
Qed.
End Frame.

Ltac frame :=
  repeat first
    [ apply frame_ret | apply frame_print | apply frame_continue
    | apply frame_raise | apply frame_read | apply frame_write
    | apply frame_lift
    | apply frame_bind; [|intros ?]
    | apply frame_try_except; [|repeat constructor; intros ?]
    | match goal with
      | |- out_frame (if ?b then _ else _) => destruct b
      | |- out_frame (match ?x with _ => _ end) => destruct x
      end ].

Lemma frame_loop_body fs path f : out_frame (Scan.loop_body fs path f).
Proof.
  unfold Scan.loop_body, Scan.process_config, Scan.find_photo, Scan.get_bubbles,
    Scan.append.
  frame.
Qed.

Lemma frame_scan_loop fs path folders : out_frame (scan_loop fs path folders).
Proof. apply frame_for_each. intros x. apply frame_loop_body. Qed.

(** ** A folder that is accepted *)

Lemma complete_inv (d : dict) :
  complete d = true ->
  exists t de h, dict_get "title" d = Some t /\ dict_get "description" d = Some de
                 /\ dict_get "has_photo" d = Some h.
Proof.
  unfold complete, dict_mem. intros H.
  destruct (dict_get "title" d) as [t|]; [|discriminate].
  destruct (dict_get "description" d) as [de|]; [|discriminate].
  destruct (dict_get "has_photo" d) as [h|]; [|discriminate].
  eauto 10.
Qed.

Lemma process_config_accepts fs f fp cp st out d dt out1 photo_path :
  load_json fs cp = inr (VDict d) ->
  complete d = true ->
  Datetime.strptime (date_str f) = inr dt ->
  find_photo fs f fp (VDict d) (st, out) = ((st, out1), Normal photo_path) ->
  process_config fs f fp cp (st, out)
  = ((appended st (bubble_data (List.length (bubbles st)) f d photo_path dt),
      (out1 ++ [Added f (lookup "title" d)])%list), Normal tt).
Proof.
  intros Hl Hc Hd Hf.
  destruct (complete_inv d Hc) as (t & de & h & Ht & Hde & Hh).
  unfold process_config, bind, lift, try_except, get_bubbles, append, read,
    write, ret, raise, print, continue.
  fold (date_str f). rewrite Hl.
  cbn -[find_photo Datetime.strptime Datetime.isoformat String.append Str.of_nat
        eq_str].
  unfold dict_mem. rewrite Ht, Hde, Hh.
  cbn -[find_photo Datetime.strptime Datetime.isoformat String.append Str.of_nat
        eq_str].
  rewrite Hd.
  cbn -[find_photo Datetime.strptime Datetime.isoformat String.append Str.of_nat
        eq_str].
  rewrite Hf.
  cbn -[find_photo Datetime.strptime Datetime.isoformat String.append Str.of_nat
        eq_str].
  unfold appended, bubble_data, lookup. rewrite Ht, Hde, Hh. reflexivity.
Qed.

Lemma find_photo_usable fs f fp d st out :
  photo_usable d = true ->
  exists out1 photo_path,
    find_photo fs f fp (VDict d) (st, out) = ((st, out1), Normal photo_path).
Proof.
  intros Hu.
  destruct (find_photo fs f fp (VDict d) (st, out)) as [[st1 out1] r] eqn:Hf.
  destruct (find_photo_cases _ _ _ _ _ _ _ _ Hf) as [Hs Hc]. cbn in Hs. subst st1.
  destruct Hc as [(_ & Hr & _)|[(_ & _ & p & _ & Hr & _)|
    [(Hh & Ht & Hi & _)|(_ & _ & Hr)]]].
  - subst r. eauto.
  - subst r. eauto.
  - unfold photo_usable in Hu. rewrite Hh, Ht, Hi in Hu. discriminate.
  - destruct (detect_photo fs fp photo_extensions); destruct Hr as [Hr _];
      subst r; eauto.
Qed.

Lemma loop_body_accepts fs path f st out d dt :
  Re.match_folder_name f = true ->
  path_exists fs (config_path path f) = true ->
  load_json fs (config_path path f) = inr (VDict d) ->
  complete d = true ->
  photo_usable d = true ->
  Datetime.strptime (date_str f) = inr dt ->
  exists out1 photo_path,
    find_photo fs f (Path.join path f) (VDict d) (st, out)
      = ((st, out1), Normal photo_path) /\
    loop_body fs path f (st, out)
    = ((appended st (bubble_data (List.length (bubbles st)) f d photo_path dt),
        (out1 ++ [Added f (lookup "title" d)])%list), Normal tt).
Proof.
  intros Hm Hx Hl Hc Hu Hd.
  destruct (find_photo_usable fs f (Path.join path f) d st out Hu)
    as (out1 & photo_path & Hf).
  exists out1, photo_path. split; [exact Hf|].
  unfold loop_body. fold (config_path path f). rewrite Hm, Hx. cbn [negb].
  unfold try_except.
  rewrite (process_config_accepts _ _ _ _ _ _ _ _ _ _ Hl Hc Hd Hf). reflexivity.
Qed.




(** ** Folders that add no record *)

Lemma lacks_required_key_dict (d : dict) :
  lacks_required_key (VDict d) <-> complete d = false.
Proof.
  unfold lacks_required_key, complete, all_in, required_fields, contains.
  destruct (dict_mem "title" d); [|split; reflexivity].
  destruct (dict_mem "description" d); [|split; reflexivity].
  destruct (dict_mem "has_photo" d); split; (reflexivity || discriminate).
Qed.

Lemma process_config_incomplete fs f fp cp st out config :
  load_json fs cp = inr config ->
  lacks_required_key config ->
  process_config fs f fp cp (st, out)
  = ((st, (out ++ [Line ("WARNING: Skipping '" ++ f
                           ++ "' - missing required fields")])%list), Continue).
Proof.
  intros Hl Hc. unfold process_config, bind, lift. rewrite Hl.
  cbn [ret]. unfold lacks_required_key in Hc. rewrite Hc. reflexivity.
Qed.

(** A folder after which the variables are as before leaves the rest of
    the loop as it would be without it. *)
Lemma skipped_folder_unaffected fs path f rest st out out1 r :
  loop_body fs path f (st, out) = ((st, out1), r) ->
  r = Normal tt \/ r = Continue ->
  fst (fst (scan_loop fs path (f :: rest) (st, out)))
  = fst (fst (scan_loop fs path rest (st, out)))
  /\ snd (scan_loop fs path (f :: rest) (st, out))
     = snd (scan_loop fs path rest (st, out)).
Proof.
  intros Hb Hr. unfold scan_loop. cbn [for_each]. rewrite Hb.
  fold (scan_loop fs path rest).
  assert (H : scan_loop fs path rest (st, out1)
              = (let '((s', o), r') := scan_loop fs path rest (st, []) in
                 ((s', (out1 ++ o)%list), r')))
    by apply frame_scan_loop.
  assert (H' : scan_loop fs path rest (st, out)
               = (let '((s', o), r') := scan_loop fs path rest (st, []) in
                  ((s', (out ++ o)%list), r')))
    by apply frame_scan_loop.
  destruct (scan_loop fs path rest (st, [])) as [[s' o] r'].
  destruct Hr; subst r; rewrite H, H'; split; reflexivity.
Qed.

(** C2. A folder whose [config.json] parses but lacks one of the keys
    [title], [description] and [has_photo] (one of the three tests
    [field in config] is false) adds no record and prints a warning, and the
    loop goes on as if the folder were not there: the records and the result
    of the loop are the same with and without it. *)
Theorem incomplete_config_skipped fs path f config st out :
  load_json fs (config_path path f) = inr config ->
  lacks_required_key config ->
  (exists m,
      loop_body fs path f (st, out) = ((st, (out ++ [Line m])%list), Continue)
      /\ is_warning (Line m) = true)
  /\ forall rest,
      fst (fst (scan_loop fs path (f :: rest) (st, out)))
      = fst (fst (scan_loop fs path rest (st, out)))
      /\ snd (scan_loop fs path (f :: rest) (st, out))
         = snd (scan_loop fs path rest (st, out)).
Proof.
  intros Hl Hc.
  assert (Hb : exists m,
      loop_body fs path f (st, out) = ((st, (out ++ [Line m])%list), Continue)
      /\ is_warning (Line m) = true).
  { unfold loop_body. fold (config_path path f).
    destruct (Re.match_folder_name f); cbn [negb].
    2:{ eexists. split; reflexivity. }
    destruct (path_exists fs (config_path path f)); cbn [negb].
    2:{ eexists. split; reflexivity. }
    unfold try_except.
    rewrite (process_config_incomplete _ _ _ _ _ _ _ Hl Hc).
    eexists. split; reflexivity. }
  split; [exact Hb|].
  intros rest. destruct Hb as (m & Hb & _).
  eapply skipped_folder_unaffected; [exact Hb|auto].
Qed.

Lemma incomplete_config_skipped_witness :
  (exists m,
      loop_body fs_incomplete "bubbles" "2024-01-15T10-30-00" (no_vars, [])
      = ((no_vars, ([] ++ [Line m])%list), Continue)
      /\ is_warning (Line m) = true)
  /\ forall rest,
      fst (fst (scan_loop fs_incomplete "bubbles"
                          ("2024-01-15T10-30-00" :: rest) (no_vars, [])))
      = fst (fst (scan_loop fs_incomplete "bubbles" rest (no_vars, [])))
      /\ snd (scan_loop fs_incomplete "bubbles"
                        ("2024-01-15T10-30-00" :: rest) (no_vars, []))
         = snd (scan_loop fs_incomplete "bubbles" rest (no_vars, [])).
Proof.
  apply (incomplete_config_skipped fs_incomplete "bubbles" "2024-01-15T10-30-00"
           (VDict incomplete_config) no_vars []); reflexivity.
Defined.

(** A configuration that is a number, a boolean or [null] has no keys
    either, but the test [field in config] raises a [TypeError] on it: the
    folder adds no record and is reported by an error line. *)
Lemma scalar_config_reported fs path f st out config :
  Re.match_folder_name f = true ->
  path_exists fs (config_path path f) = true ->
  load_json fs (config_path path f) = inr config ->
  (forall s, config <> VStr s) -> (forall l, config <> VList l) ->
  (forall d, config <> VDict d) ->
  loop_body fs path f (st, out)
  = ((st, (out ++ [Line ("ERROR: Error processing '" ++ f
                           ++ "': argument of type '" ++ type_name config
                           ++ "' is not iterable")])%list), Normal tt).
Proof.
  intros Hm Hx Hl Hs Hli Hd.
  unfold loop_body. fold (config_path path f). rewrite Hm, Hx. cbn [negb].
  unfold try_except, process_config, bind, lift. rewrite Hl. cbn [ret].
  destruct config; try reflexivity.
  - now elim (Hs s).
  - now elim (Hli l).
  - now elim (Hd d).
Qed.

(** ** Exceptions inside the loop body *)

Lemma loop_body_catches fs path f st out e w1 :
  Re.match_folder_name f = true ->
  path_exists fs (config_path path f) = true ->
  process_config fs f (Path.join path f) (config_path path f) (st, out)
  = (w1, Raise e) ->
  isinstance e Exception = true ->
  loop_body fs path f (st, out)
  = ((st, (out ++ [Line (error_line f e)])%list), Normal tt).
Proof.
  intros Hm Hx Hp He.
  destruct w1 as [st1 out1].
  destruct (process_config_inv _ _ _ _ _ _ _ _ _ Hp)
    as [(_ & Hr & _)|[(Hs & Ho & _)|(Hr & _)]]; try discriminate.
  subst st1 out1.
  unfold loop_body. fold (config_path path f). rewrite Hm, Hx. cbn [negb].
  unfold try_except. rewrite Hp. cbn -[isinstance String.append].
  unfold error_line.
  destruct (isinstance e JSONDecodeError); cbn -[isinstance String.append].
  - reflexivity.
  - rewrite He. reflexivity.
Qed.

Lemma process_config_raises_ordinary fs f fp cp w w1 e :
  ordinary_errors fs ->
  process_config fs f fp cp w = (w1, Raise e) ->
  isinstance e Exception = true.
Proof.
  intros Ho Hp. destruct w as [st out], w1 as [st1 out1].
  destruct (process_config_inv _ _ _ _ _ _ _ _ _ Hp)
    as [(_ & Hr & _)|[(_ & _ & e' & Hr & He)|(Hr & _)]]; try discriminate.
  inversion Hr; subst e'. destruct He as [He|He]; [|exact He].
  exact (Ho _ _ He).
Qed.

Lemma loop_body_ordinary fs path f st out st' out' r :
  ordinary_errors fs ->
  loop_body fs path f (st, out) = ((st', out'), r) ->
  r = Normal tt \/ r = Continue.
Proof.
  intros Ho Hb.
  destruct (loop_body_inv _ _ _ _ _ _ _ _ Hb)
    as [(_ & Hr & _)|[(_ & Hr & _)|[(_ & _ & e & _ & Hl & He)|(Hr & _)]]]; auto.
  rewrite (Ho _ _ Hl) in He. discriminate.
Qed.

Lemma scan_loop_returns fs path folders w :
  ordinary_errors fs ->
  exists w', scan_loop fs path folders w = (w', Normal tt).
Proof.
  intros Ho. revert w. induction folders as [|f rest IH]; intros w.
  - exists w. reflexivity.
  - unfold scan_loop. cbn [for_each]. destruct w as [st out].
    destruct (loop_body fs path f (st, out)) as [[st' out'] r] eqn:Hb.
    destruct (loop_body_ordinary _ _ _ _ _ _ _ _ Ho Hb); subst r; apply IH.
Qed.

(** ** The photo of an accepted folder *)

Lemma eq_str_true (v : value) (s : string) :
  eq_str v s = true <-> v = VStr s.
Proof.
  destruct v; cbn; split; try discriminate.
  - intros H. apply String.eqb_eq in H. now subst.
  - intros H. inversion H. apply String.eqb_refl.
Qed.

Lemma not_appended (st : vars) (b : dict) :
  bubbles st <> (bubbles st ++ [b])%list.
Proof.
  intros H. apply (f_equal (@List.length dict)) in H.
  rewrite length_app in H. cbn in H. lia.
Qed.

(** A run of the loop body that appends a record is the accepting one. *)
Lemma loop_body_appended fs path f st out st' out' r b :
  loop_body fs path f (st, out) = ((st', out'), r) ->
  bubbles st' = (bubbles st ++ [b])%list ->
  r = Normal tt
  /\ Re.match_folder_name f = true
  /\ path_exists fs (config_path path f) = true
  /\ exists d dt photo_path out1,
      load_json fs (config_path path f) = inr (VDict d) /\ complete d = true /\
      Datetime.strptime (date_str f) = inr dt /\
      find_photo fs f (Path.join path f) (VDict d) (st, out)
        = ((st, out1), Normal photo_path) /\
      b = bubble_data (List.length (bubbles st)) f d photo_path dt /\
      st' = appended st b /\
      out' = (out1 ++ [Added f (lookup "title" d)])%list.
Proof.
  intros Hb Ha.
  destruct (loop_body_inv _ _ _ _ _ _ _ _ Hb)
    as [(Hs & _)|[(Hs & _)|[(Hs & _)|(Hr & Hm & Hx & d & dt & ph & out1 & Hl & Hc
                                       & Hd & Hf & Hs & Ho)]]];
    try (subst st'; exfalso; eapply not_appended; exact Ha).
  repeat split; try assumption.
  exists d, dt, ph, out1.
  assert (Hbb : b = bubble_data (Datatypes.length (bubbles st)) f d ph dt).
  { subst st'. cbn in Ha. apply app_inv_head in Ha. now inversion Ha. }
  subst b. auto 10.
Qed.

(** C8. The field [hasPhoto] of the record of an accepted folder is true
    exactly when [has_photo] is the string ["True"] in the configuration.
    For any other value of [has_photo] (it is a key of the configuration,
    the folder being accepted) the field is false, the photo is [None] and
    nothing is printed but the line of the record: no photo is looked
    for. *)
Theorem hasPhoto_only_for_True fs path f st out st' out' r b :
  loop_body fs path f (st, out) = ((st', out'), r) ->
  bubbles st' = (bubbles st ++ [b])%list ->
  exists d,
    load_json fs (config_path path f) = inr (VDict d)
    /\ dict_mem "has_photo" d = true
    /\ (dict_get "hasPhoto" b = Some (VBool true)
        <-> dict_get "has_photo" d = Some (VStr "True"))
    /\ (dict_get "has_photo" d <> Some (VStr "True") ->
        dict_get "hasPhoto" b = Some (VBool false)
        /\ dict_get "photo" b = Some VNone
        /\ out' = (out ++ [Added f (lookup "title" d)])%list).
Proof.
  intros Hb Ha.
  destruct (loop_body_appended _ _ _ _ _ _ _ _ _ Hb Ha)
    as (_ & _ & _ & d & dt & ph & out1 & Hl & Hc & _ & Hf & Hbb & _ & Ho).
  exists d. split; [exact Hl|].
  destruct (complete_inv d Hc) as (t & de & h & _ & _ & Hh).
  split; [unfold dict_mem; now rewrite Hh|].
  subst b. cbn [bubble_data dict_get String.eqb Ascii.eqb Bool.eqb].
  unfold lookup at 1. rewrite Hh.
  split.
  - split.
    + intros H. inversion H as [H1]. apply eq_str_true in H1. now subst h.
    + intros H. inversion H. reflexivity.
  - intros Hn.
    assert (He : eq_str h "True" = false).
    { destruct (eq_str h "True") eqn:E; [|reflexivity].
      apply eq_str_true in E. subst h. now elim Hn. }
    split; [unfold lookup; rewrite Hh, He; reflexivity|].
    destruct (find_photo_cases _ _ _ _ _ _ _ _ Hf) as [_ Hcs].
    assert (Hlk : lookup "has_photo" d = h) by (unfold lookup; now rewrite Hh).
    rewrite !Hlk, !He in Hcs.
    destruct Hcs as [(_ & Hr & Hs)|[(Hx & _)|[(Hx & _)|(Hx & _)]]];
      try discriminate.
    cbn in Hs. inversion Hr. subst. split; reflexivity.
Qed.

Lemma hasPhoto_only_for_True_witness :
  exists d,
    load_json fs_bool_true (config_path "bubbles" "2024-01-15T10-30-00")
    = inr (VDict d)
    /\ dict_mem "has_photo" d = true
    /\ (dict_get "hasPhoto"
          (bubble_data 0 "2024-01-15T10-30-00" config_bool_true VNone
                       day_2024_01_15) = Some (VBool true)
        <-> dict_get "has_photo" d = Some (VStr "True"))
    /\ (dict_get "has_photo" d <> Some (VStr "True") ->
        dict_get "hasPhoto"
          (bubble_data 0 "2024-01-15T10-30-00" config_bool_true VNone
                       day_2024_01_15) = Some (VBool false)
        /\ dict_get "photo"
             (bubble_data 0 "2024-01-15T10-30-00" config_bool_true VNone
                          day_2024_01_15) = Some VNone
        /\ [Added "2024-01-15T10-30-00" (VStr "Sea")]
           = ([] ++ [Added "2024-01-15T10-30-00" (lookup "title" d)])%list).
Proof.
  apply (hasPhoto_only_for_True fs_bool_true "bubbles" "2024-01-15T10-30-00"
           no_vars []
           (appended no_vars
              (bubble_data 0 "2024-01-15T10-30-00" config_bool_true VNone
                           day_2024_01_15))
           [Added "2024-01-15T10-30-00" (VStr "Sea")] (Normal tt));
    reflexivity.
Defined.

Lemma truthy_lookup (k : string) (d : dict) :
  truthy (lookup k d) = true -> dict_get k d = Some (lookup k d).
Proof.
  unfold lookup. destruct (dict_get k d); [reflexivity|discriminate].
Qed.

(** C9. In the record of an accepted folder whose configuration has
    [has_photo] equal to ["True"] and a [photo] that is set, [photo] is a
    string [p] and the field [photo] is [bubbles/<folder>/<p>], whether the
    file is there or not: when it is not, a warning is printed before the
    line of the record, and that is the only difference. *)
Theorem named_photo_kept fs path f st out st' out' r b d :
  loop_body fs path f (st, out) = ((st', out'), r) ->
  bubbles st' = (bubbles st ++ [b])%list ->
  load_json fs (config_path path f) = inr (VDict d) ->
  dict_get "has_photo" d = Some (VStr "True") ->
  truthy (lookup "photo" d) = true ->
  exists p,
    dict_get "photo" d = Some (VStr p)
    /\ dict_get "photo" b = Some (VStr ("bubbles/" ++ f ++ "/" ++ p))
    /\ out' = ((if path_exists fs (Path.join (Path.join path f) p) then out
                else out ++ [Line ("WARNING: Photo '" ++ p ++ "' not found in '"
                                     ++ f ++ "'")])
               ++ [Added f (lookup "title" d)])%list.
Proof.
  intros Hb Ha Hl Hh Ht.
  destruct (loop_body_appended _ _ _ _ _ _ _ _ _ Hb Ha)
    as (_ & _ & _ & d' & dt & ph & out1 & Hl' & _ & _ & Hf & Hbb & _ & Ho).
  rewrite Hl in Hl'. inversion Hl'. subst d'.
  assert (Hlk : lookup "has_photo" d = VStr "True")
    by (unfold lookup; now rewrite Hh).
  destruct (find_photo_cases _ _ _ _ _ _ _ _ Hf) as [_ Hcs].
  rewrite !Hlk, !Ht in Hcs. cbn [eq_str String.eqb Ascii.eqb Bool.eqb] in Hcs.
  destruct Hcs as [(Hx & _)|[(_ & _ & p & Hp & Hr & Hs)|
    [(_ & _ & _ & _ & e & Hr & _)|(_ & Hx & _)]]]; try discriminate.
  exists p. inversion Hr. subst ph. cbn in Hs. subst out1.
  split; [rewrite (truthy_lookup _ _ Ht); now rewrite Hp|].
  split; [subst b; reflexivity|exact Ho].
Qed.

Lemma named_photo_kept_witness :
  exists p,
    dict_get "photo" config_photo = Some (VStr p)
    /\ dict_get "photo"
         (bubble_data 0 "2024-01-15T10-30-00" config_photo
            (VStr "bubbles/2024-01-15T10-30-00/sea.jpg") day_2024_01_15)
       = Some (VStr ("bubbles/" ++ "2024-01-15T10-30-00" ++ "/" ++ p))
    /\ [Line "WARNING: Photo 'sea.jpg' not found in '2024-01-15T10-30-00'";
        Added "2024-01-15T10-30-00" (VStr "Sea")]
       = ((if path_exists fs_photo_missing
                (Path.join (Path.join "bubbles" "2024-01-15T10-30-00") p)
           then []
           else [] ++ [Line ("WARNING: Photo '" ++ p ++ "' not found in '"
                               ++ "2024-01-15T10-30-00" ++ "'")])
          ++ [Added "2024-01-15T10-30-00" (lookup "title" config_photo)])%list.
Proof.
  apply (named_photo_kept fs_photo_missing "bubbles" "2024-01-15T10-30-00"
           no_vars []
           (appended no_vars
              (bubble_data 0 "2024-01-15T10-30-00" config_photo
                 (VStr "bubbles/2024-01-15T10-30-00/sea.jpg") day_2024_01_15))
           [Line "WARNING: Photo 'sea.jpg' not found in '2024-01-15T10-30-00'";
            Added "2024-01-15T10-30-00" (VStr "Sea")]
           (Normal tt)); reflexivity.
Defined.

(** ** The order of the folders *)

Lemma leb_iff (a b : string) :
  Str.leb a b = true <-> a = b \/ String_as_OT.lt a b.
Proof.
  unfold Str.leb, String.leb.
  destruct (String.compare a b) eqn:E; split; intros H; try reflexivity.
  - left. now apply String.compare_eq_iff.
  - right. now apply String_as_OT.cmp_lt.
  - discriminate.
  - destruct H as [H|H].
    + subst b. assert (Hc : String.compare a a = Eq)
        by (apply String_as_OT.cmp_eq; reflexivity).
      congruence.
    + apply String_as_OT.cmp_lt in H. unfold String_as_OT.cmp in H. congruence.
Qed.

Lemma string_le_trans (a b c : string) :
  string_le a b -> string_le b c -> string_le a c.
Proof.
  unfold string_le. rewrite !leb_iff.
  intros [->|H1] [->|H2]; auto.
  right. eapply String_as_OT.lt_trans; eassumption.
Qed.

Lemma string_le_total (a b : string) : string_le a b \/ string_le b a.
Proof. apply String.leb_total. Qed.

Lemma insert_perm (x : string) (l : list string) :
  Permutation (x :: l) (Scan.insert x l).
Proof.
  induction l as [|y l IH]; cbn; [reflexivity|].
  destruct (Str.leb x y); [reflexivity|].
  rewrite perm_swap. now constructor.
Qed.

Lemma sort_perm (l : list string) : Permutation l (Scan.sort l).
Proof.
  induction l as [|x l IH]; cbn; [constructor|].
  rewrite <- insert_perm. now constructor.
Qed.

Lemma insert_sorted (x : string) (l : list string) :
  StronglySorted string_le l -> StronglySorted string_le (Scan.insert x l).
Proof.
  induction l as [|y l IH]; cbn; intros Hs.
  - repeat constructor.
  - inversion Hs as [|? ? Hs' Hy]; subst.
    destruct (Str.leb x y) eqn:E.
    + constructor; [exact Hs|]. constructor; [exact E|].
      rewrite Forall_forall in *. intros z Hz.
      eapply string_le_trans; [exact E|auto].
    + constructor; [auto|].
      assert (Hyx : string_le y x).
      { destruct (string_le_total x y) as [H|H]; [|exact H].
        unfold string_le in H. congruence. }
      rewrite Forall_forall in *. intros z Hz.
      apply (Permutation_in _ (Permutation_sym (insert_perm x l))) in Hz.
      destruct Hz as [<-|Hz]; auto.
Qed.

Lemma sort_sorted (l : list string) : StronglySorted string_le (Scan.sort l).
Proof.
  induction l as [|x l IH]; cbn; [constructor|]. now apply insert_sorted.
Qed.

Lemma Subseq_nil_l {A} (l : list A) : Subseq [] l.
Proof. induction l; constructor; assumption. Qed.

(** ** The records of a scan *)

Lemma produced_from_app fs path n fl1 bs1 fl2 bs2 :
  produced_from fs path n fl1 bs1 ->
  produced_from fs path (n + List.length bs1) fl2 bs2 ->
  produced_from fs path n (fl1 ++ fl2) (bs1 ++ bs2).
Proof.
  intros H. revert fl2 bs2. induction H as [n|n f b fl bs Hp H IH]; intros fl2 bs2 H2.
  - cbn in *. now rewrite Nat.add_0_r in H2.
  - cbn. constructor; [exact Hp|]. apply IH.
    cbn in H2. now rewrite Nat.add_succ_r in H2.
Qed.

Lemma scan_loop_produces fs path folders st out st' out' r :
  scan_loop fs path folders (st, out) = ((st', out'), r) ->
  written st' = written st
  /\ exists accepted new,
      Subseq accepted folders
      /\ bubbles st' = (bubbles st ++ new)%list
      /\ produced_from fs path (List.length (bubbles st)) accepted new.
Proof.
  revert st out. induction folders as [|f rest IH]; intros st out H.
  - cbn in H. inversion H; subst. split; [reflexivity|].
    exists [], []. repeat split; [constructor|now rewrite app_nil_r|constructor].
  - unfold scan_loop in H. cbn [for_each] in H.
    destruct (loop_body fs path f (st, out)) as [[st1 out1] r1] eqn:Hb.
    destruct (loop_body_inv _ _ _ _ _ _ _ _ Hb)
      as [(Hs & Hr & _)|[(Hs & Hr & _)|[(Hs & _ & e & Hr & _)|
          (Hr & Hm & Hx & d & dt & ph & out2 & Hl & Hc & Hd & Hf & Hs & Ho)]]];
      subst r1.
    + subst st1. destruct (IH _ _ H) as (Hw & acc & new & Hsub & Hbs & Hp).
      split; [exact Hw|]. exists acc, new. repeat split; auto. now constructor.
    + subst st1. destruct (IH _ _ H) as (Hw & acc & new & Hsub & Hbs & Hp).
      split; [exact Hw|]. exists acc, new. repeat split; auto. now constructor.
    + subst st1. inversion H; subst. split; [reflexivity|].
      exists [], []. repeat split;
        [apply Subseq_nil_l|now rewrite app_nil_r|constructor].
    + destruct (IH _ _ H) as (Hw & acc & new & Hsub & Hbs & Hp).
      subst st1. cbn in Hw, Hbs, Hp. split; [exact Hw|].
      exists (f :: acc),
        (bubble_data (List.length (bubbles st)) f d ph dt :: new).
      repeat split.
      * now constructor.
      * rewrite Hbs, <- app_assoc. reflexivity.
      * constructor.
        -- exists d, dt, ph. auto 10.
        -- rewrite length_app in Hp. cbn in Hp.
           now rewrite Nat.add_1_r in Hp.
Qed.

Lemma scan_inv fs path st0 out0 st out bs :
  scan_bubbles_folder fs path (st0, out0) = ((st, out), Normal bs) ->
  bs = bubbles st
  /\ written st = written st0
  /\ ((path_exists fs path = false /\ bs = [])
      \/ (path_exists fs path = true
          /\ exists names accepted,
              listdir fs path = inr names
              /\ Subseq accepted
                   (Scan.sort (filter (fun f => path_isdir fs (Path.join path f))
                                      names))
              /\ produced_from fs path 0 accepted bs)).
Proof.
  unfold scan_bubbles_folder, set_bubbles, get_bubbles, bind, read, write, ret,
    print, lift.
  cbn -[loop_body Scan.sort String.append Str.of_nat].
  destruct (path_exists fs path) eqn:Hx;
    cbn -[loop_body Scan.sort String.append Str.of_nat].
  2:{ intros H; inversion H; subst. cbn. auto. }
  destruct (listdir fs path) as [e|names] eqn:Hn;
    cbn -[loop_body Scan.sort String.append Str.of_nat]; [discriminate|].
  match goal with
  | |- context [for_each ?l (loop_body fs path) ?w] =>
      destruct (for_each l (loop_body fs path) w) as [[st1 out1] r1] eqn:Hl
  end.
  apply scan_loop_produces in Hl.
  destruct Hl as (Hw & acc & new & Hsub & Hbs & Hp). cbn in Hw, Hbs, Hp.
  destruct r1; intros H; inversion H; subst.
  repeat split; auto. right. split; [reflexivity|].
  exists names, acc. auto.
Qed.

Lemma produced_from_ids fs path n acc bs :
  produced_from fs path n acc bs ->
  forall i b, nth_error bs i = Some b ->
              dict_get "id" b = Some (VStr ("bubble-" ++ Str.of_nat (n + i))).
Proof.
  induction 1 as [n|n f b0 fl bs Hp H IH]; intros i b Hi.
  - destruct i; discriminate.
  - destruct i as [|i]; cbn in Hi.
    + inversion Hi; subst b0. destruct Hp as (d & dt & ph & _ & _ & _ & _ & Hb).
      subst b. rewrite Nat.add_0_r. reflexivity.
    + rewrite (IH i b Hi). now rewrite Nat.add_succ_r.
Qed.

Lemma produced_from_names fs path n acc bs :
  produced_from fs path n acc bs ->
  map (dict_get "folderName") bs = map (fun f => Some (VStr f)) acc.
Proof.
  induction 1 as [n|n f b0 fl bs Hp H IH]; [reflexivity|].
  cbn [map]. rewrite IH. f_equal.
  destruct Hp as (d & dt & ph & _ & _ & _ & _ & Hb). subst b0. reflexivity.
Qed.

Lemma produced_from_In fs path n acc bs b :
  produced_from fs path n acc bs -> In b bs ->
  exists k f, produced fs path k f b.
Proof.
  induction 1 as [n|n f b0 fl bs Hp H IH]; intros Hin; [destruct Hin|].
  destruct Hin as [<-|Hin]; eauto.
Qed.

(** ** The records are those of the accepted folders *)

Lemma find_photo_normal_usable fs f fp d st out w' v :
  find_photo fs f fp (VDict d) (st, out) = (w', Normal v) ->
  photo_usable d = true.
Proof.
  intros H. apply find_photo_cases in H.
  destruct H as (_ & [(He & _)|[(He & Ht & p & Hp & _)|[(_ & _ & _ & _ & e & Hr & _)
    |(He & Ht & _)]]]); unfold photo_usable.
  - now rewrite He.
  - rewrite Hp. cbn. apply orb_true_r.
  - discriminate.
  - now rewrite He, Ht.
Qed.

Lemma accepts_inv fs path f :
  accepts fs path f = true ->
  Re.match_folder_name f = true
  /\ path_exists fs (config_path path f) = true
  /\ exists d dt,
      load_json fs (config_path path f) = inr (VDict d)
      /\ complete d = true /\ photo_usable d = true
      /\ Datetime.strptime (date_str f) = inr dt.
Proof.
  unfold accepts. intros H.
  apply andb_prop in H. destruct H as [H H3].
  apply andb_prop in H. destruct H as [H1 H2].
  split; [exact H1|]. split; [exact H2|].
  destruct (load_json fs (config_path path f)) as [e|[| | | | | |d]];
    try discriminate.
  apply andb_prop in H3. destruct H3 as [H3 H4].
  apply andb_prop in H3. destruct H3 as [H3 H5].
  destruct (Datetime.strptime (date_str f)) as [e|dt]; [discriminate|].
  exists d, dt. auto.
Qed.

(** A folder that is accepted gets its record, with the next number. *)
Lemma loop_body_accepted fs path f st out :
  accepts fs path f = true ->
  exists b out',
    loop_body fs path f (st, out) = ((appended st b, out'), Normal tt)
    /\ produced fs path (List.length (bubbles st)) f b.
Proof.
  intros H. apply accepts_inv in H.
  destruct H as (Hm & Hx & d & dt & Hl & Hc & Hu & Hd).
  destruct (loop_body_accepts fs path f st out d dt Hm Hx Hl Hc Hu Hd)
    as (out1 & ph & _ & Hb).
  eexists. eexists. split; [exact Hb|].
  exists d, dt, ph. auto.
Qed.

(** A folder that is not accepted leaves the records as they are. *)
Lemma loop_body_rejected fs path f st out st' out' r :
  accepts fs path f = false ->
  loop_body fs path f (st, out) = ((st', out'), r) ->
  st' = st.
Proof.
  intros Ha Hb.
  destruct (loop_body_inv _ _ _ _ _ _ _ _ Hb)
    as [(Hs & _)|[(Hs & _)|[(Hs & _)|
        (Hr & Hm & Hx & d & dt & ph & out2 & Hl & Hc & Hd & Hf & Hs & Ho)]]];
    try exact Hs.
  exfalso. apply find_photo_normal_usable in Hf.
  unfold accepts in Ha. rewrite Hm, Hx, Hl, Hc, Hf, Hd in Ha. discriminate.
Qed.

Lemma scan_loop_accepted fs path folders st out st' out' :
  scan_loop fs path folders (st, out) = ((st', out'), Normal tt) ->
  exists new,
    bubbles st' = (bubbles st ++ new)%list
    /\ produced_from fs path (List.length (bubbles st))
                     (filter (accepts fs path) folders) new.
Proof.
  revert st out. induction folders as [|f rest IH]; intros st out H.
  - cbn in H. inversion H; subst. exists []. split;
      [now rewrite app_nil_r|constructor].
  - unfold scan_loop in H. cbn [for_each] in H. cbn [filter].
    destruct (accepts fs path f) eqn:Ha.
    + destruct (loop_body_accepted fs path f st out Ha) as (b & out1 & Hb & Hp).
      rewrite Hb in H. destruct (IH _ _ H) as (new & Hbs & Hpf).
      cbn in Hbs, Hpf. exists (b :: new). split.
      * rewrite Hbs, <- app_assoc. reflexivity.
      * constructor; [exact Hp|].
        rewrite length_app in Hpf. cbn in Hpf.
        now rewrite Nat.add_1_r in Hpf.
    + destruct (loop_body fs path f (st, out)) as [[st1 out1] r1] eqn:Hb.
      pose proof (loop_body_rejected _ _ _ _ _ _ _ _ Ha Hb) as Hs. subst st1.
      destruct r1 as [[]| |e|]; try discriminate; exact (IH _ _ H).
Qed.

(** What a scan that returns has done. *)
Lemma scan_accepted fs path st0 out0 st out bs :
  scan_bubbles_folder fs path (st0, out0) = ((st, out), Normal bs) ->
  bs = bubbles st
  /\ ((path_exists fs path = false /\ bs = [])
      \/ (path_exists fs path = true
          /\ exists names,
              listdir fs path = inr names
              /\ produced_from fs path 0
                   (filter (accepts fs path) (sorted_folders fs path names)) bs)).
Proof.
  unfold scan_bubbles_folder, set_bubbles, get_bubbles, bind, read, write, ret,
    print, lift, sorted_folders.
  cbn -[loop_body Scan.sort String.append Str.of_nat accepts].
  destruct (path_exists fs path) eqn:Hx;
    cbn -[loop_body Scan.sort String.append Str.of_nat accepts].
  2:{ intros H; inversion H; subst. cbn. auto. }
  destruct (listdir fs path) as [e|names] eqn:Hn;
    cbn -[loop_body Scan.sort String.append Str.of_nat accepts]; [discriminate|].
  match goal with
  | |- context [for_each ?l (loop_body fs path) ?w] =>
      destruct (for_each l (loop_body fs path) w) as [[st1 out1] r1] eqn:Hl
  end.
  destruct r1 as [[]| |e|]; intros H; inversion H; subst.
  apply scan_loop_accepted in Hl. destruct Hl as (new & Hbs & Hp).
  cbn in Hbs, Hp. split; [reflexivity|]. right. split; [reflexivity|].
  exists names. split; [reflexivity|]. rewrite Hbs. exact Hp.
Qed.

(** C4. The loop of a scan runs over the directories of the folder sorted
    by name: [Scan.sort] returns them all, in increasing order.  The scan
    that returns has appended one record for each folder of that list that
    is accepted and none for the others, in the order of the list; the
    record at position [i], counted from 0 among the records, has the
    identifier [bubble-i].  Without the folder there is no record. *)
Theorem ids_in_folder_sort_order fs path st out bs :
  Scan.run (scan_bubbles_folder fs path) = ((st, out), Normal bs) ->
  (forall i b, nth_error bs i = Some b ->
               dict_get "id" b = Some (VStr ("bubble-" ++ Str.of_nat i)))
  /\ (path_exists fs path = false -> bs = [])
  /\ (path_exists fs path = true ->
      exists names,
        listdir fs path = inr names
        /\ Permutation (filter (fun f => path_isdir fs (Path.join path f)) names)
                       (sorted_folders fs path names)
        /\ StronglySorted string_le (sorted_folders fs path names)
        /\ map (dict_get "folderName") bs
           = map (fun f => Some (VStr f))
                 (filter (accepts fs path) (sorted_folders fs path names))).
Proof.
  unfold Scan.run. intros H.
  destruct (scan_accepted _ _ _ _ _ _ _ H)
    as (_ & [(Hx & Hbs)|(Hx & names & Hn & Hp)]).
  - subst bs. split; [intros [|i] b Hi; discriminate|].
    split; [reflexivity|]. intros Hx'. congruence.
  - split; [|split].
    + intros i b Hi. exact (produced_from_ids _ _ _ _ _ Hp i b Hi).
    + intros Hx'. congruence.
    + intros _. exists names.
      split; [exact Hn|]. split; [apply sort_perm|].
      split; [apply sort_sorted|].
      exact (produced_from_names _ _ _ _ _ Hp).
Qed.

Lemma ids_in_folder_sort_order_witness :
  (forall i b, nth_error (bubbles (fst (fst scan_two_days))) i = Some b ->
               dict_get "id" b = Some (VStr ("bubble-" ++ Str.of_nat i)))
  /\ map (dict_get "folderName") (bubbles (fst (fst scan_two_days)))
     = [Some (VStr "2024-01-15T10-30-00"); Some (VStr "2024-02-01T08-00-00")].
Proof.
  destruct (ids_in_folder_sort_order fs_two_days "bubbles"
              (fst (fst scan_two_days)) (snd (fst scan_two_days))
              (bubbles (fst (fst scan_two_days))) eq_refl)
    as (Hid & _ & Hn).
  split; [exact Hid|].
  destruct (Hn eq_refl) as (names & Hl & _ & _ & Hm).
  rewrite Hm. inversion Hl; subst names. reflexivity.
Defined.

(** ** The array written to [bubbles.json] *)

Lemma scan_written fs path st0 out0 st out r :
  scan_bubbles_folder fs path (st0, out0) = ((st, out), r) ->
  written st = written st0.
Proof.
  unfold scan_bubbles_folder, set_bubbles, get_bubbles, bind, read, write, ret,
    print, lift.
  cbn -[loop_body Scan.sort String.append Str.of_nat].
  destruct (path_exists fs path);
    cbn -[loop_body Scan.sort String.append Str.of_nat].
  2:{ intros H; inversion H; subst. reflexivity. }
  destruct (listdir fs path) as [e|names];
    cbn -[loop_body Scan.sort String.append Str.of_nat].
  { intros H; inversion H; subst. reflexivity. }
  match goal with
  | |- context [for_each ?l (loop_body fs path) ?w] =>
      destruct (for_each l (loop_body fs path) w) as [[st1 out1] r1] eqn:Hl
  end.
  apply scan_loop_produces in Hl. destruct Hl as (Hw & _). cbn in Hw.
  destruct r1; intros H; inversion H; subst; exact Hw.
Qed.

Lemma main_written fs st out r name arr :
  Scan.run (main fs) = ((st, out), r) ->
  In (name, arr) (written st) ->
  name = "bubbles.json"
  /\ exists out0 st1 out1 bs,
      scan_bubbles_folder fs "bubbles" (no_vars, out0) = ((st1, out1), Normal bs)
      /\ arr = calculate_positions bs.
Proof.
  unfold Scan.run, main. unfold bind at 1 2 3. unfold print at 1 2.
  cbn -[scan_bubbles_folder calculate_positions generate_bubbles_json String.append].
  fold no_vars.
  match goal with
  | |- context [scan_bubbles_folder fs "bubbles" ?w] =>
      destruct (scan_bubbles_folder fs "bubbles" w) as [[st1 out1] r1] eqn:Hs
  end.
  pose proof (scan_written _ _ _ _ _ _ _ Hs) as Hw. cbn in Hw.
  destruct r1 as [bs| |e|].
  2-4: intros H; inversion H; subst; rewrite Hw; intros [].
  destruct bs as [|b0 bs].
  { unfold print. cbn. intros H; inversion H; subst. rewrite Hw. intros []. }
  unfold generate_bubbles_json, try_except, bind, record_file, read, write, ret,
    raise, print.
  cbn -[scan_bubbles_folder calculate_positions String.append Str.of_nat isinstance].
  destruct (dump_json fs "bubbles.json") as [e|];
    cbn -[scan_bubbles_folder calculate_positions String.append Str.of_nat isinstance].
  - destruct (isinstance e Exception);
      cbn -[scan_bubbles_folder calculate_positions String.append Str.of_nat];
      intros H; inversion H; subst; rewrite Hw; intros [].
  - intros H; inversion H; subst. cbn [written]. rewrite Hw. cbn.
    intros [Hin|[]]. inversion Hin; subst. split; [reflexivity|].
    eexists. exists st1, out1, (b0 :: bs). split; [exact Hs|reflexivity].
Qed.

Lemma set_positions_In n i l b :
  In b (set_positions n i l) ->
  exists b0 v, In b0 l /\ b = dict_set "x" v b0.
Proof.
  revert i. induction l as [|b1 l IH]; intros i Hin; [destruct Hin|].
  cbn [set_positions] in Hin. destruct Hin as [<-|Hin].
  - eexists. eexists. split; [left; reflexivity|reflexivity].
  - destruct (IH _ Hin) as (b0 & v & Hb0 & Hb). exists b0, v. split; [now right|exact Hb].
Qed.

Lemma calculate_positions_In l b :
  In b (calculate_positions l) ->
  exists b0 v, In b0 l /\ b = dict_set "x" v b0.
Proof.
  destruct l as [|b1 l]; [intros []|]. unfold calculate_positions.
  apply set_positions_In.
Qed.

(** C5. A record of the array written to [bubbles.json] has the twelve
    fields [id], [title], [description], [location], [photo], [date],
    [folderName], [hasPhoto], [rawDate], [size], [x], [y] and no other.  It
    comes from a folder whose configuration is a JSON object: its [title]
    and [description] are the ones of the configuration, its [location] is
    the one of the configuration or the empty string when there is none,
    and [date] and [folderName] are the name of the folder. *)
Theorem output_record_fields fs st out r name arr b :
  Scan.run (main fs) = ((st, out), r) ->
  In (name, arr) (written st) ->
  In b arr ->
  keys b = output_fields
  /\ exists f d,
      load_json fs (config_path "bubbles" f) = inr (VDict d)
      /\ dict_mem "title" d = true
      /\ dict_get "title" b = dict_get "title" d
      /\ dict_mem "description" d = true
      /\ dict_get "description" b = dict_get "description" d
      /\ dict_get "location" b
         = Some (match dict_get "location" d with
                 | Some v => v
                 | None => VStr ""
                 end)
      /\ dict_get "date" b = Some (VStr f)
      /\ dict_get "folderName" b = Some (VStr f).
Proof.
  intros Hm Hw Hb.
  destruct (main_written _ _ _ _ _ _ Hm Hw) as (_ & out0 & st1 & out1 & bs & Hs & Ha).
  subst arr. destruct (calculate_positions_In _ _ Hb) as (b0 & v & Hb0 & Hbb).
  destruct (scan_inv _ _ _ _ _ _ _ Hs) as (_ & _ & [(_ & Hbs)|(_ & names & acc & _ & _ & Hp)]).
  { subst bs. destruct Hb0. }
  destruct (produced_from_In _ _ _ _ _ _ Hp Hb0) as (k & f & d & dt & ph & _ & Hl & Hc & _ & Hbd).
  destruct (complete_inv d Hc) as (t & de & h & Ht & Hde & Hh).
  subst b b0. split; [reflexivity|].
  exists f, d. split; [exact Hl|].
  unfold dict_mem. rewrite Ht, Hde.
  cbn [bubble_data dict_set dict_get String.eqb Ascii.eqb Bool.eqb].
  unfold lookup. rewrite Ht, Hde. repeat split; reflexivity.
Qed.

Lemma output_record_fields_witness :
  keys first_record_two_days = output_fields
  /\ exists f d,
      load_json fs_two_days (config_path "bubbles" f) = inr (VDict d)
      /\ dict_mem "title" d = true
      /\ dict_get "title" first_record_two_days = dict_get "title" d
      /\ dict_mem "description" d = true
      /\ dict_get "description" first_record_two_days = dict_get "description" d
      /\ dict_get "location" first_record_two_days
         = Some (match dict_get "location" d with
                 | Some v => v
                 | None => VStr ""
                 end)
      /\ dict_get "date" first_record_two_days = Some (VStr f)
      /\ dict_get "folderName" first_record_two_days = Some (VStr f).
Proof.
  apply (output_record_fields fs_two_days (fst (fst main_two_days))
           (snd (fst main_two_days)) (snd main_two_days)
           "bubbles.json" array_two_days first_record_two_days).
  - reflexivity.
  - vm_compute. left. reflexivity.
  - vm_compute. left. reflexivity.
Defined.

(** ** Rounding to binary64 *)

Section Rounding.
Local Open Scope Q_scope.

Lemma pow2_pos (e : Z) : 0 < Float.pow2 e.
Proof. apply Qpower_0_lt. reflexivity. Qed.

Lemma pow2_add (a b : Z) : Float.pow2 (a + b) == Float.pow2 a * Float.pow2 b.
Proof. apply Qpower_plus. discriminate. Qed.

Lemma pow2_le (a b : Z) : (a <= b)%Z -> Float.pow2 a <= Float.pow2 b.
Proof. intros H. apply Qpower_le_compat_l; [exact H|discriminate]. Qed.

Lemma pow2_lt (a b : Z) : (a < b)%Z -> Float.pow2 a < Float.pow2 b.
Proof. intros H. apply Qpower_lt_compat_l; [exact H|reflexivity]. Qed.

Lemma pow2_inject (e : Z) : (0 <= e)%Z -> inject_Z (2 ^ e) == Float.pow2 e.
Proof. intros H. apply (Zpower_Qpower 2 e H). Qed.

Lemma div_pow2 (q : Q) (e : Z) : q / Float.pow2 e == q * Float.pow2 (- e).
Proof. unfold Qdiv, Float.pow2. now rewrite Qpower_opp. Qed.

Lemma pow2_cancel (e : Z) : Float.pow2 (- e) * Float.pow2 e == 1.
Proof. rewrite <- pow2_add. replace (- e + e)%Z with 0%Z by lia. reflexivity. Qed.

(** [ilog2] is the exponent of the binade of its argument. *)
Lemma ilog2_spec (q : Q) :
  0 < q -> Float.pow2 (Float.ilog2 q) <= q /\ q < Float.pow2 (Float.ilog2 q + 1).
Proof.
  intros Hq. destruct q as [n d]. unfold Float.ilog2. cbn [Qnum Qden].
  assert (Hn : (0 < n)%Z).
  { unfold Qlt in Hq. cbn in Hq. lia. }
  set (a := Z.log2 n). set (b := Z.log2 (Z.pos d)).
  destruct (Z.log2_spec n Hn) as [Ha1 Ha2]. fold a in Ha1, Ha2.
  destruct (Z.log2_spec (Z.pos d) (Pos2Z.is_pos d)) as [Hb1 Hb2].
  fold b in Hb1, Hb2.
  assert (Ha0 : (0 <= a)%Z) by apply Z.log2_nonneg.
  assert (Hb0 : (0 <= b)%Z) by apply Z.log2_nonneg.
  (* bounds in Q *)
  assert (Hnl : Float.pow2 a <= inject_Z n).
  { rewrite <- pow2_inject by exact Ha0. rewrite <- Zle_Qle. exact Ha1. }
  assert (Hnu : inject_Z n < Float.pow2 (a + 1)).
  { rewrite <- pow2_inject by lia. rewrite <- Zlt_Qlt.
    replace (a + 1)%Z with (Z.succ a) by lia. exact Ha2. }
  assert (Hdl : Float.pow2 b <= inject_Z (Z.pos d)).
  { rewrite <- pow2_inject by exact Hb0. rewrite <- Zle_Qle. exact Hb1. }
  assert (Hdu : inject_Z (Z.pos d) < Float.pow2 (b + 1)).
  { rewrite <- pow2_inject by lia. rewrite <- Zlt_Qlt.
    replace (b + 1)%Z with (Z.succ b) by lia. exact Hb2. }
  assert (Hdp : 0 < inject_Z (Z.pos d)).
  { rewrite <- (Qmult_0_l 1). unfold Qlt. cbn. lia. }
  assert (Hq' : n # d == inject_Z n / inject_Z (Z.pos d)) by apply Qmake_Qdiv.
  (* the quotient lies strictly between 2^(a-b-1) and 2^(a-b+1) *)
  assert (Hlow : Float.pow2 (a - b - 1) < n # d).
  { rewrite Hq'. apply Qlt_shift_div_l; [exact Hdp|].
    apply Qlt_le_trans with (Float.pow2 (a - b - 1) * Float.pow2 (b + 1)).
    - apply Qmult_lt_l; [apply pow2_pos|exact Hdu].
    - rewrite <- pow2_add. replace (a - b - 1 + (b + 1))%Z with a by lia.
      exact Hnl. }
  assert (Hup : n # d < Float.pow2 (a - b + 1)).
  { rewrite Hq'. apply Qlt_shift_div_r; [exact Hdp|].
    apply Qlt_le_trans with (Float.pow2 (a + 1)); [exact Hnu|].
    apply Qle_trans with (Float.pow2 (a - b + 1) * Float.pow2 b).
    - rewrite <- pow2_add. replace (a - b + 1 + b)%Z with (a + 1)%Z by lia.
      apply Qle_refl.
    - apply Qmult_le_l; [apply pow2_pos|exact Hdl]. }
  destruct (Qle_bool (Float.pow2 (a - b)) (n # d)) eqn:E.
  - apply Qle_bool_iff in E. split; [exact E|exact Hup].
  - assert (Hlt : n # d < Float.pow2 (a - b)).
    { apply Qnot_le_lt. intros H. apply Qle_bool_iff in H. congruence. }
    split.
    + apply Qlt_le_weak. exact Hlow.
    + replace (a - b - 1 + 1)%Z with (a - b)%Z by lia. exact Hlt.
Qed.

Lemma ilog2_unique (q : Q) (e : Z) :
  Float.pow2 e <= q -> q < Float.pow2 (e + 1) -> Float.ilog2 q = e.
Proof.
  intros H1 H2.
  assert (Hq : 0 < q) by (eapply Qlt_le_trans; [apply pow2_pos|exact H1]).
  destruct (ilog2_spec q Hq) as [H3 H4].
  set (k := Float.ilog2 q) in *.
  destruct (Z.lt_trichotomy k e) as [Hlt|[Heq|Hgt]]; [|exact Heq|].
  - exfalso. assert (Float.pow2 (k + 1) <= Float.pow2 e) by (apply pow2_le; lia).
    apply (Qlt_irrefl q). eapply Qlt_le_trans; [exact H4|].
    eapply Qle_trans; [eassumption|exact H1].
  - exfalso. assert (Float.pow2 (e + 1) <= Float.pow2 k) by (apply pow2_le; lia).
    apply (Qlt_irrefl q). eapply Qlt_le_trans; [exact H2|].
    eapply Qle_trans; [eassumption|exact H3].
Qed.

Lemma ilog2_comp (a b : Q) : 0 < a -> a == b -> Float.ilog2 a = Float.ilog2 b.
Proof.
  intros Ha Hab. symmetry. destruct (ilog2_spec a Ha) as [H1 H2].
  apply ilog2_unique; rewrite <- Hab; assumption.
Qed.

Lemma ilog2_mono (a b : Q) : 0 < a -> a <= b -> (Float.ilog2 a <= Float.ilog2 b)%Z.
Proof.
  intros Ha Hab.
  assert (Hb : 0 < b) by (eapply Qlt_le_trans; eassumption).
  destruct (ilog2_spec a Ha) as [H1 _]. destruct (ilog2_spec b Hb) as [_ H4].
  destruct (Z_le_gt_dec (Float.ilog2 a) (Float.ilog2 b)) as [H|H]; [exact H|].
  exfalso.
  assert (Float.pow2 (Float.ilog2 b + 1) <= Float.pow2 (Float.ilog2 a))
    by (apply pow2_le; lia).
  apply (Qlt_irrefl b). eapply Qlt_le_trans; [exact H4|].
  eapply Qle_trans; [eassumption|]. eapply Qle_trans; eassumption.
Qed.

Lemma nearest_even_comp (a b : Q) :
  a == b -> Float.nearest_even a = Float.nearest_even b.
Proof.
  intros H. unfold Float.nearest_even.
  rewrite (Qfloor_comp _ _ H).
  assert (Hc : (a - inject_Z (Qfloor b) ?= 1 # 2) = (b - inject_Z (Qfloor b) ?= 1 # 2))
    by (now rewrite H).
  now rewrite Hc.
Qed.

Lemma nearest_even_Z (z : Z) : Float.nearest_even (inject_Z z) = z.
Proof.
  unfold Float.nearest_even. rewrite Qfloor_Z.
  assert (Hc : (inject_Z z - inject_Z z ?= 1 # 2) = Lt).
  { rewrite <- Qlt_alt. ring_simplify. reflexivity. }
  now rewrite Hc.
Qed.

Lemma nearest_even_mono (a b : Q) :
  a <= b -> (Float.nearest_even a <= Float.nearest_even b)%Z.
Proof.
  intros Hab. unfold Float.nearest_even.
  pose proof (Qfloor_resp_le _ _ Hab) as Hf.
  pose proof (Qfloor_le a) as Ha1. pose proof (Qlt_floor a) as Ha2.
  pose proof (Qfloor_le b) as Hb1. pose proof (Qlt_floor b) as Hb2.
  set (fa := Qfloor a) in *. set (fb := Qfloor b) in *.
  clearbody fa fb.
  destruct (Z.eq_dec fa fb) as [Heq|Hne].
  - rewrite <- Heq in *. clear Heq.
    destruct (a - inject_Z fa ?= 1 # 2) eqn:Ea;
      destruct (b - inject_Z fa ?= 1 # 2) eqn:Eb;
      try (destruct (Z.even fa)); try lia; exfalso;
      repeat match goal with
             | H : (_ ?= _) = Eq |- _ => apply Qeq_alt in H
             | H : (_ ?= _) = Lt |- _ => apply Qlt_alt in H
             | H : (_ ?= _) = Gt |- _ => apply Qgt_alt in H
             end; lra.
  - assert (fa + 1 <= fb)%Z by lia.
    destruct (a - inject_Z fa ?= 1 # 2);
      destruct (b - inject_Z fb ?= 1 # 2);
      try (destruct (Z.even fa)); try (destruct (Z.even fb)); lia.
Qed.

Lemma nearest_even_nonneg (a : Q) : 0 <= a -> (0 <= Float.nearest_even a)%Z.
Proof.
  intros H. rewrite <- (nearest_even_Z 0). now apply nearest_even_mono.
Qed.

(** The rounded value, up to [==]. *)
Lemma round_eq (q : Q) :
  ~ q == 0 ->
  Float.round q
  == inject_Z (Float.nearest_even (q * Float.pow2 (- Float.ulp_exp q)))
     * Float.pow2 (Float.ulp_exp q).
Proof.
  intros H. unfold Float.round.
  destruct (Qeq_bool q 0) eqn:E; [apply Qeq_bool_iff in E; contradiction|].
  rewrite Qred_correct.
  now rewrite (nearest_even_comp _ _ (div_pow2 q (Float.ulp_exp q))).
Qed.

Lemma round_0 (q : Q) : q == 0 -> Float.round q = 0.
Proof.
  intros H. unfold Float.round. apply Qeq_bool_iff in H. now rewrite H.
Qed.

Lemma ulp_exp_comp (a b : Q) : 0 < a -> a == b -> Float.ulp_exp a = Float.ulp_exp b.
Proof.
  intros Ha H. unfold Float.ulp_exp.
  assert (Hab : Qabs a == Qabs b) by (now rewrite H).
  rewrite (ilog2_comp (Qabs a) (Qabs b)); [reflexivity| |exact Hab].
  rewrite Qabs_pos; [exact Ha|now apply Qlt_le_weak].
Qed.

(** Rounding does not depend on the fraction that stands for the
    number. *)
Lemma round_comp (a b : Q) : 0 <= a -> a == b -> Float.round a = Float.round b.
Proof.
  intros Ha H. destruct (Qeq_dec a 0) as [Hz|Hz].
  - rewrite (round_0 a Hz). symmetry. apply round_0. now rewrite <- H.
  - assert (Hp : 0 < a).
    { apply Qle_lteq in Ha. destruct Ha as [Ha|Ha]; [exact Ha|].
      elim Hz. now symmetry. }
    unfold Float.round.
    destruct (Qeq_bool a 0) eqn:Ea; [apply Qeq_bool_iff in Ea; contradiction|].
    destruct (Qeq_bool b 0) eqn:Eb.
    { apply Qeq_bool_iff in Eb. elim Hz. now rewrite H. }
    apply Qred_complete. rewrite <- (ulp_exp_comp a b Hp H).
    now rewrite (nearest_even_comp _ _ (Qdiv_comp _ _ H _ _ (Qeq_refl _))).
Qed.

Lemma ulp_exp_mono (a b : Q) :
  0 < a -> a <= b -> (Float.ulp_exp a <= Float.ulp_exp b)%Z.
Proof.
  intros Ha Hab. unfold Float.ulp_exp.
  assert (Hb : 0 < b) by (eapply Qlt_le_trans; eassumption).
  assert (H : (Float.ilog2 (Qabs a) <= Float.ilog2 (Qabs b))%Z).
  { apply ilog2_mono.
    - rewrite Qabs_pos; [exact Ha|now apply Qlt_le_weak].
    - rewrite !Qabs_pos; [exact Hab|now apply Qlt_le_weak|now apply Qlt_le_weak]. }
  lia.
Qed.

Lemma round_nonneg (a : Q) : 0 <= a -> 0 <= Float.round a.
Proof.
  intros Ha. destruct (Qeq_dec a 0) as [Hz|Hz].
  - rewrite (round_0 a Hz). apply Qle_refl.
  - rewrite (round_eq a Hz). apply Qmult_le_0_compat.
    + change 0 with (inject_Z 0). rewrite <- Zle_Qle. apply nearest_even_nonneg.
      apply Qmult_le_0_compat; [exact Ha|apply Qlt_le_weak, pow2_pos].
    + apply Qlt_le_weak, pow2_pos.
Qed.

(** Rounding is monotone. *)
Lemma round_mono (a b : Q) : 0 <= a -> a <= b -> Float.round a <= Float.round b.
Proof.
  intros Ha Hab.
  assert (Hb0 : 0 <= b) by (eapply Qle_trans; eassumption).
  destruct (Qeq_dec a 0) as [Hz|Hz].
  { rewrite (round_0 a Hz). now apply round_nonneg. }
  assert (Hp : 0 < a).
  { apply Qle_lteq in Ha. destruct Ha as [Ha|Ha]; [exact Ha|].
    elim Hz. now symmetry. }
  assert (Hb : 0 < b) by (eapply Qlt_le_trans; eassumption).
  assert (Hbz : ~ b == 0) by (intros H; rewrite H in Hb; discriminate).
  rewrite (round_eq a Hz), (round_eq b Hbz).
  pose proof (ulp_exp_mono a b Hp Hab) as Hs.
  set (sa := Float.ulp_exp a) in *. set (sb := Float.ulp_exp b) in *.
  destruct (Z.eq_dec sa sb) as [Heq|Hne].
  - rewrite <- Heq. apply Qmult_le_compat_r; [|apply Qlt_le_weak, pow2_pos].
    rewrite <- Zle_Qle. apply nearest_even_mono.
    apply Qmult_le_compat_r; [exact Hab|apply Qlt_le_weak, pow2_pos].
  - assert (Hlt : (sa + 1 <= sb)%Z) by lia.
    (* [b] is a normal number, beyond the binade of [a] *)
    assert (Hsb : sb = (Float.ilog2 b - 52)%Z).
    { assert (Hab' : Float.ilog2 (Qabs b) = Float.ilog2 b).
      { apply ilog2_comp; [|apply Qabs_pos; now apply Qlt_le_weak].
        rewrite Qabs_pos; [exact Hb|now apply Qlt_le_weak]. }
      unfold sa, sb, Float.ulp_exp, Float.prec, Float.emin in *.
      rewrite Hab' in *. lia. }
    assert (Hsa : (Float.ilog2 a - 52 <= sa)%Z).
    { assert (Hab' : Float.ilog2 (Qabs a) = Float.ilog2 a).
      { apply ilog2_comp; [|apply Qabs_pos; now apply Qlt_le_weak].
        rewrite Qabs_pos; [exact Hp|now apply Qlt_le_weak]. }
      unfold sa, Float.ulp_exp, Float.prec, Float.emin in *.
      rewrite Hab' in *. lia. }
    destruct (ilog2_spec a Hp) as [_ Hau]. destruct (ilog2_spec b Hb) as [Hbl _].
    apply Qle_trans with (Float.pow2 (sb + 52)).
    + (* the rounded [a] is at most 2^(sa+53) *)
      apply Qle_trans with (inject_Z (2 ^ 53) * Float.pow2 sa).
      * apply Qmult_le_compat_r; [|apply Qlt_le_weak, pow2_pos].
        rewrite <- Zle_Qle. rewrite <- (nearest_even_Z (2 ^ 53)).
        apply nearest_even_mono.
        rewrite (pow2_inject 53) by lia.
        apply Qmult_lt_0_le_reg_r with (Float.pow2 sa); [apply pow2_pos|].
        rewrite <- Qmult_assoc, pow2_cancel, Qmult_1_r, <- pow2_add.
        apply Qlt_le_weak. eapply Qlt_le_trans; [exact Hau|].
        apply pow2_le. lia.
      * rewrite (pow2_inject 53) by lia. rewrite <- pow2_add.
        apply pow2_le. lia.
    + (* the rounded [b] is at least 2^(sb+52) *)
      apply Qle_trans with (inject_Z (2 ^ 52) * Float.pow2 sb).
      * rewrite (pow2_inject 52) by lia. rewrite <- pow2_add.
        apply pow2_le. lia.
      * apply Qmult_le_compat_r; [|apply Qlt_le_weak, pow2_pos].
        rewrite <- Zle_Qle. rewrite <- (nearest_even_Z (2 ^ 52)) at 1.
        apply nearest_even_mono.
        rewrite (pow2_inject 52) by lia.
        apply Qmult_lt_0_le_reg_r with (Float.pow2 sb); [apply pow2_pos|].
        rewrite <- Qmult_assoc, pow2_cancel, Qmult_1_r, <- pow2_add.
        eapply Qle_trans; [|exact Hbl]. apply pow2_le. lia.
Qed.

End Rounding.

(** ** The positions *)

Section Positions.
Local Open Scope Q_scope.

Lemma round_exact (v : Z) (q : Q) :
  Float.round (inject_Z v) = inject_Z v -> (0 <= v)%Z -> q == inject_Z v ->
  Float.round q = inject_Z v.
Proof.
  intros Hr Hv Hq. rewrite <- Hr. symmetry. apply round_comp.
  - change 0 with (inject_Z 0). now rewrite <- Zle_Qle.
  - now symmetry.
Qed.

Lemma position_of_0 (d : Z) : (0 < d)%Z -> position_of 0 d = 10.
Proof.
  intros Hd. unfold position_of, Float.int_add, Float.mul_int, Float.truediv.
  assert (H1 : Float.round (inject_Z 0 / inject_Z d) = 0).
  { apply round_0. unfold Qdiv. apply Qmult_0_l. }
  rewrite H1.
  assert (H2 : Float.round (0 * inject_Z 80) = 0) by (apply round_0; apply Qmult_0_l).
  rewrite H2.
  apply (round_exact 10); [vm_compute; reflexivity|lia|apply Qplus_0_r].
Qed.

Lemma position_of_last (d : Z) : (0 < d)%Z -> position_of d d = 90.
Proof.
  intros Hd. unfold position_of, Float.int_add, Float.mul_int, Float.truediv.
  assert (H1 : Float.round (inject_Z d / inject_Z d) = inject_Z 1).
  { apply (round_exact 1); [vm_compute; reflexivity|lia|].
    apply Qmult_inv_r. intros H. unfold Qeq in H. cbn in H. lia. }
  rewrite H1.
  assert (H2 : Float.round (inject_Z 1 * inject_Z 80) = inject_Z 80).
  { apply (round_exact 80); [vm_compute; reflexivity|lia|apply Qmult_1_l]. }
  rewrite H2.
  apply (round_exact 90); [vm_compute; reflexivity|lia|reflexivity].
Qed.

Lemma position_of_mono (i j d : Z) :
  (0 < d)%Z -> (0 <= i)%Z -> (i <= j)%Z -> position_of i d <= position_of j d.
Proof.
  intros Hd Hi Hij.
  unfold position_of, Float.int_add, Float.mul_int, Float.truediv.
  assert (Hdq : 0 < / inject_Z d).
  { apply Qinv_lt_0_compat. change 0 with (inject_Z 0). now rewrite <- Zlt_Qlt. }
  assert (Hi0 : 0 <= inject_Z i / inject_Z d).
  { apply Qmult_le_0_compat; [|now apply Qlt_le_weak].
    change 0 with (inject_Z 0). now rewrite <- Zle_Qle. }
  assert (Hq : inject_Z i / inject_Z d <= inject_Z j / inject_Z d).
  { apply Qmult_le_compat_r; [|now apply Qlt_le_weak]. now rewrite <- Zle_Qle. }
  pose proof (round_mono _ _ Hi0 Hq) as Ht.
  pose proof (round_nonneg _ Hi0) as Ht0.
  set (ti := Float.round (inject_Z i / inject_Z d)) in *.
  set (tj := Float.round (inject_Z j / inject_Z d)) in *.
  assert (H80 : 0 <= inject_Z 80) by discriminate.
  assert (Hm0 : 0 <= ti * inject_Z 80) by (now apply Qmult_le_0_compat).
  assert (Hm : ti * inject_Z 80 <= tj * inject_Z 80)
    by (now apply Qmult_le_compat_r).
  pose proof (round_mono _ _ Hm0 Hm) as Hu.
  pose proof (round_nonneg _ Hm0) as Hu0.
  apply round_mono.
  - apply Qle_trans with (inject_Z 10 + 0); [discriminate|].
    now apply Qplus_le_r.
  - now apply Qplus_le_r.
Qed.

Lemma position_first (n : nat) : position n 0 = 10.
Proof. unfold position. apply position_of_0. lia. Qed.

Lemma position_last (n : nat) : (2 <= n)%nat -> position n (n - 1) = 90.
Proof.
  intros Hn. unfold position.
  replace (Z.of_nat (n - 1)) with (Z.max 1 (Z.of_nat n - 1)) by lia.
  apply position_of_last. lia.
Qed.

Lemma position_mono (n i j : nat) : (i <= j)%nat -> position n i <= position n j.
Proof. intros H. unfold position. apply position_of_mono; lia. Qed.

Lemma position_range (n i : nat) :
  (i < n)%nat -> 10 <= position n i /\ position n i <= 90.
Proof.
  intros Hi. split.
  - rewrite <- (position_first n). apply position_mono. lia.
  - unfold position. set (d := Z.max 1 (Z.of_nat n - 1)).
    rewrite <- (position_of_last d) by lia.
    apply position_of_mono; lia.
Qed.

End Positions.

Lemma dict_get_set (k : string) (v : value) (d : dict) :
  dict_get k (dict_set k v d) = Some v.
Proof.
  induction d as [|[k' v'] d IH]; cbn.
  - now rewrite String.eqb_refl.
  - destruct (String.eqb k k') eqn:E; cbn; rewrite E; [reflexivity|exact IH].
Qed.

Lemma set_positions_xs (n i : nat) (l : list dict) :
  map x_of (Scan.set_positions n i l)
  = map (fun k => Some (position n k)) (seq i (List.length l)).
Proof.
  revert i. induction l as [|b l IH]; intros i; [reflexivity|].
  cbn [Scan.set_positions map List.length seq]. rewrite IH. f_equal.
  unfold x_of. rewrite dict_get_set. reflexivity.
Qed.

Lemma nth_error_positions (n s m i : nat) (a : Q) :
  nth_error (map (position n) (seq s m)) i = Some a ->
  (i < m)%nat /\ a = position n (s + i).
Proof.
  revert s i. induction m as [|m IH]; intros s i H.
  - destruct i; discriminate.
  - destruct i as [|i]; cbn in H.
    + inversion H. split; [lia|]. now rewrite Nat.add_0_r.
    + destruct (IH _ _ H) as [Hi Ha]. split; [lia|].
      rewrite Ha. f_equal. lia.
Qed.

Lemma nth_positions (n s m i : nat) :
  (i < m)%nat ->
  nth_error (map (position n) (seq s m)) i = Some (position n (s + i)).
Proof.
  revert s i. induction m as [|m IH]; intros s i H; [lia|].
  destruct i as [|i]; cbn.
  - now rewrite Nat.add_0_r.
  - rewrite IH by lia. f_equal. f_equal. lia.
Qed.

(** C3. For two records or more, the positions [x] that
    [calculate_positions] sets never decrease along the list, the first is
    10 and the last is 90. *)
Theorem positions_span_10_90 (bs : list dict) :
  2 <= List.length bs ->
  exists xs : list Q,
    map x_of (Scan.calculate_positions bs) = map Some xs
    /\ List.length xs = List.length bs
    /\ (forall i j a b, i <= j -> nth_error xs i = Some a ->
                        nth_error xs j = Some b -> (a <= b)%Q)
    /\ nth_error xs 0 = Some 10%Q
    /\ nth_error xs (List.length bs - 1) = Some 90%Q.
Proof.
  intros Hn. set (n := List.length bs) in *.
  exists (map (position n) (seq 0 n)).
  split; [|split; [|split; [|split]]].
  - unfold Scan.calculate_positions. destruct bs as [|b0 bs]; [cbn in n; lia|].
    fold n. rewrite set_positions_xs. fold n. now rewrite map_map.
  - now rewrite length_map, length_seq.
  - intros i j a b Hij Ha Hb.
    apply nth_error_positions in Ha, Hb. destruct Ha as [_ ->], Hb as [_ ->].
    apply position_mono. lia.
  - rewrite nth_positions by lia. now rewrite position_first.
  - rewrite nth_positions by lia. cbn [Nat.add]. now rewrite position_last.
Qed.

Lemma positions_span_10_90_witness :
  exists xs : list Q,
    map x_of (Scan.calculate_positions three_records) = map Some xs
    /\ List.length xs = List.length three_records
    /\ (forall i j a b, i <= j -> nth_error xs i = Some a ->
                        nth_error xs j = Some b -> (a <= b)%Q)
    /\ nth_error xs 0 = Some 10%Q
    /\ nth_error xs (List.length three_records - 1) = Some 90%Q.
Proof.
  apply (positions_span_10_90 three_records). cbn. lia.
Defined.

Lemma set_positions_In_x n i l b :
  In b (Scan.set_positions n i l) ->
  exists k, i <= k < i + List.length l /\ x_of b = Some (position n k).
Proof.
  revert i. induction l as [|b1 l IH]; intros i Hin; [destruct Hin|].
  cbn [Scan.set_positions] in Hin. destruct Hin as [<-|Hin].
  - exists i. split; [cbn; lia|]. unfold x_of. now rewrite dict_get_set.
  - destruct (IH _ Hin) as (k & Hk & Hx). exists k. split; [cbn; lia|exact Hx].
Qed.

(** C10. [calculate_positions] returns the empty list as it is; it gives
    the only record of a list of one the position 10; and every position it
    sets lies between 10 and 90. *)
Theorem positions_edge_cases :
  Scan.calculate_positions [] = []
  /\ (forall b, map x_of (Scan.calculate_positions [b]) = [Some 10%Q])
  /\ forall bs b, In b (Scan.calculate_positions bs) ->
                  exists q, x_of b = Some q /\ (10 <= q)%Q /\ (q <= 90)%Q.
Proof.
  split; [reflexivity|]. split.
  - intros b. unfold Scan.calculate_positions. rewrite set_positions_xs.
    cbn [List.length seq map]. now rewrite position_first.
  - intros bs b Hin. destruct bs as [|b0 bs]; [destruct Hin|].
    unfold Scan.calculate_positions in Hin.
    destruct (set_positions_In_x _ _ _ _ Hin) as (k & Hk & Hx).
    exists (position (List.length (b0 :: bs)) k). split; [exact Hx|].
    apply position_range. lia.
Qed.

Lemma positions_edge_cases_witness :
  exists q,
    x_of (hd [] (Scan.calculate_positions three_records)) = Some q
    /\ (10 <= q)%Q /\ (q <= 90)%Q.
Proof.
  apply (proj2 (proj2 positions_edge_cases) three_records).
  vm_compute. left. reflexivity.
Defined.

(** ** Dates: some folder names *)

(** What [strptime] accepts is a date of the calendar and a time of day. *)
Lemma strptime_valid (s : string) (dt : Datetime.datetime) :
  Datetime.strptime s = inr dt ->
  Datetime.check_date_fields (Datetime.year dt) (Datetime.month dt)
                             (Datetime.day dt) = true
  /\ Datetime.check_time_fields (Datetime.hour dt) (Datetime.minute dt)
                                (Datetime.second dt) = true.
Proof.
  unfold Datetime.strptime. intros H.
  destruct (Datetime.format_regex s) as [|[[[[[[gY gm] gd] gH] gM] gS] rest] l];
    [discriminate|].
  destruct (negb (rest =? "")); [discriminate|].
  cbn [Datetime.year Datetime.month Datetime.day Datetime.hour Datetime.minute
       Datetime.second] in H.
  destruct (Datetime.check_date_fields _ _ _) eqn:Ed; [|discriminate].
  destruct (Datetime.check_time_fields _ _ _) eqn:Et; [|discriminate].
  cbn [negb] in H. inversion H; subst. cbn. split; assumption.
Qed.

Example strptime_rejects_trailing_newline :
  Re.match_folder_name ("2024-01-15T10-30-00" ++ Scan.nl) = true
  /\ Datetime.strptime (date_str ("2024-01-15T10-30-00" ++ Scan.nl))
     = inl (error ValueError ("unconverted data remains: " ++ Scan.nl)).
Proof. split; reflexivity. Qed.

Example strptime_accepts_a_day :
  Datetime.strptime (date_str "2024-01-15T10-30-00") = inr day_2024_01_15
  /\ Datetime.isoformat day_2024_01_15 = "2024-01-15T10:30:00".
Proof. split; reflexivity. Qed.

Example strptime_rejects_february_30 :
  Re.match_folder_name "2024-02-30T10-30-00" = true
  /\ Datetime.strptime (date_str "2024-02-30T10-30-00")
     = inl (error ValueError "day is out of range for month").
Proof. split; reflexivity. Qed.

Example strptime_rejects_second_60 :
  Re.match_folder_name "2024-01-15T10-30-60" = true
  /\ Datetime.strptime (date_str "2024-01-15T10-30-60")
     = inl (error ValueError "second must be in 0..59").
Proof. split; reflexivity. Qed.

Example scan_two_days_records :
  map (dict_get "id") (bubbles (fst (fst scan_two_days)))
  = [Some (VStr "bubble-0"); Some (VStr "bubble-1")]
  /\ map (dict_get "folderName") (bubbles (fst (fst scan_two_days)))
     = [Some (VStr "2024-01-15T10-30-00"); Some (VStr "2024-02-01T08-00-00")]
  /\ map x_of array_two_days = [Some 10%Q; Some 90%Q].
Proof. repeat split; vm_compute; reflexivity. Qed.

(** The second of four positions is the float that Python prints as
    36.666666666666664. *)
Example position_second_of_four :
  position 4 1 = (5160374573028693 # 140737488355328)%Q.
Proof. vm_compute. reflexivity. Qed.

(** ** The scan when [print] can raise *)

Section Same.
Context {S : Type}.

Lemma same_refl {A} (m : Eff.M S A) : same m m.
Proof. intros w. reflexivity. Qed.

Lemma same_bind {A B} (m m' : Eff.M S A) (f f' : A -> Eff.M S B) :
  same m m' -> (forall a, same (f a) (f' a)) -> same (bind m f) (bind m' f').
Proof.
  intros Hm Hf w. unfold bind. rewrite (Hm w).
  destruct (m' w) as [w1 [a| |e|]]; try reflexivity. apply Hf.
Qed.

Lemma same_try_except {A} (m m' : Eff.M S A)
      (hs hs' : list (cls * (exn -> Eff.M S A))) :
  same m m' -> same_handlers hs hs' ->
  same (try_except m hs) (try_except m' hs').
Proof.
  intros Hm Hh w. unfold try_except. rewrite (Hm w).
  destruct (m' w) as [w1 [a| |e|]]; try reflexivity.
  induction Hh as [|h h' hs hs' [Hc Hs] _ IH]; [reflexivity|].
  cbn [find]. rewrite Hc.
  destruct (isinstance e (fst h')); [apply Hs|exact IH].
Qed.

Lemma same_for_each {X} (xs : list X) (body body' : X -> Eff.M S unit) :
  (forall x, same (body x) (body' x)) ->
  same (for_each xs body) (for_each xs body').
Proof.
  intros Hb. induction xs as [|x xs IH]; intros w; [reflexivity|].
  cbn [for_each]. rewrite (Hb x w).
  destruct (body' x w) as [w1 [a| |e|]]; try reflexivity; apply IH.
Qed.
End Same.

Lemma same_print (c : Console.stdout) (m : message) :
  takes_every_line c -> same (Console.print c m) (print m).
Proof. intros Hc w. unfold Console.print. now rewrite (Hc m). Qed.

Ltac same :=
  repeat first
    [ apply same_print; assumption
    | apply same_bind; [|intros ?]
    | apply same_try_except; [|repeat constructor; intros ?]
    | match goal with
      | |- same (if ?b then _ else _) (if ?b then _ else _) => destruct b
      | |- same (match ?x with _ => _ end) (match ?x with _ => _ end) =>
          destruct x
      end
    | apply same_refl ].

(** On a standard output that takes every line the scan is the one of the
    module [Scan]. *)
Lemma find_photo_same c fs f fp config :
  takes_every_line c ->
  same (Console.find_photo c fs f fp config) (find_photo fs f fp config).
Proof. intros Hc. unfold Console.find_photo, find_photo. same. Qed.

Lemma process_config_same c fs f fp cp :
  takes_every_line c ->
  same (Console.process_config c fs f fp cp) (process_config fs f fp cp).
Proof.
  intros Hc. unfold Console.process_config, process_config.
  apply same_bind; [apply same_refl|intros config].
  apply same_bind; [apply same_refl|intros ok].
  destruct (negb ok); [same|].
  apply same_bind; [same|intros dt].
  apply same_bind; [apply find_photo_same; exact Hc|intros ph].
  same.
Qed.

Lemma loop_body_same c fs path f :
  takes_every_line c ->
  same (Console.loop_body c fs path f) (loop_body fs path f).
Proof.
  intros Hc. unfold Console.loop_body, loop_body.
  destruct (negb (Re.match_folder_name f)); [same|].
  destruct (negb (path_exists fs (Path.join (Path.join path f) "config.json")));
    [same|].
  apply same_try_except; [apply process_config_same; exact Hc|].
  repeat constructor; intros e; same.
Qed.

Lemma console_loop_same c fs path folders :
  takes_every_line c ->
  same (console_loop c fs path folders) (scan_loop fs path folders).
Proof.
  intros Hc. apply same_for_each. intros f. apply loop_body_same. exact Hc.
Qed.

Lemma scan_bubbles_folder_same c fs path :
  takes_every_line c ->
  same (Console.scan_bubbles_folder c fs path) (scan_bubbles_folder fs path).
Proof.
  intros Hc. unfold Console.scan_bubbles_folder, scan_bubbles_folder.
  apply same_bind; [apply same_refl|intros _].
  destruct (negb (path_exists fs path)); [same|].
  apply same_bind; [apply same_refl|intros names].
  apply same_bind; [same|intros _].
  apply same_bind; [|intros _; apply same_refl].
  apply same_for_each. intros f. apply loop_body_same. exact Hc.
Qed.

(** The scan of a folder that can be listed, where the errors of the file
    system are ordinary: it returns the records of the accepted folders. *)
Lemma scan_returns_accepted fs path :
  ordinary_errors fs ->
  (path_exists fs path = true -> exists names, listdir fs path = inr names) ->
  exists st out bs,
    Scan.run (scan_bubbles_folder fs path) = ((st, out), Normal bs)
    /\ bs = bubbles st
    /\ map (dict_get "folderName") bs
       = map (fun f => Some (VStr f)) (accepted_folders fs path).
Proof.
  intros Ho Hls.
  assert (Hr : exists st out bs,
             Scan.run (scan_bubbles_folder fs path) = ((st, out), Normal bs)).
  { unfold Scan.run, scan_bubbles_folder, set_bubbles, get_bubbles, bind, read,
      write, ret, print, lift.
    cbn -[loop_body sort String.append Str.of_nat].
    destruct (path_exists fs path) eqn:Hx;
      cbn -[loop_body sort String.append Str.of_nat].
    2:{ eexists. eexists. eexists. reflexivity. }
    destruct (Hls eq_refl) as (names & Hn). rewrite Hn.
    cbn -[loop_body sort String.append Str.of_nat].
    match goal with
    | |- context [for_each ?l (loop_body fs path) ?w] =>
        destruct (scan_loop_returns fs path l w Ho) as ([st' out'] & Hr);
        unfold scan_loop in Hr; rewrite Hr
    end.
    cbn. eexists. eexists. eexists. reflexivity. }
  destruct Hr as (st & out & bs & Hr). exists st, out, bs.
  split; [exact Hr|].
  destruct (scan_accepted _ _ _ _ _ _ _ Hr)
    as (Hbs & [(Hx & He)|(Hx & names & Hn & Hp)]).
  - split; [exact Hbs|]. unfold accepted_folders. rewrite Hx, He. reflexivity.
  - split; [exact Hbs|]. unfold accepted_folders. rewrite Hx, Hn.
    exact (produced_from_names _ _ _ _ _ Hp).
Qed.

(** C6, as stated, fails.  The warning of line 38 is printed outside the
    [try] statement: on a standard output in ASCII the folder [cafe], whose
    name is no timestamp, raises a [UnicodeEncodeError], which is an
    [Exception], and the scan ends by it although a valid folder was
    accepted before.  A keyboard interrupt while a [config.json] is read is
    no [Exception] and ends the scan; so does an [OSError] of
    [os.listdir]. *)
Lemma scan_aborts_on_uncaught_exception :
  (snd (Console.run (Console.scan_bubbles_folder ascii_stdout fs_cafe "bubbles"))
   = Raise cannot_encode
   /\ isinstance cannot_encode Exception = true
   /\ accepted_folders fs_cafe "bubbles" = ["2024-01-15T10-30-00"])
  /\ (snd (Console.run (Console.scan_bubbles_folder Console.quiet fs_interrupted
                                                     "bubbles"))
      = Raise interrupt
      /\ accepted_folders fs_interrupted "bubbles" = ["2024-02-01T08-00-00"])
  /\ snd (Console.run (Console.scan_bubbles_folder Console.quiet fs_unreadable
                                                    "bubbles"))
     = Raise permission_denied.
Proof. repeat split; vm_compute; reflexivity. Qed.

(** C6, as amended.  Where the standard output takes every line, the
    folder can be listed when it is there, and the errors of the file system
    are ordinary exceptions, [scan_bubbles_folder] returns, and the records
    it returns are those of the accepted folders, one for each, in the order
    of the loop.  An exception raised in the [try] statement while a folder
    is processed is caught in the loop body, which prints an error line and
    ends normally with the variables as they were: the loop goes on, and
    its records and result are the ones it has without that folder. *)
Theorem ordinary_exceptions_do_not_abort c fs path :
  takes_every_line c ->
  ordinary_errors fs ->
  (path_exists fs path = true -> exists names, listdir fs path = inr names) ->
  (exists st out bs,
      Console.run (Console.scan_bubbles_folder c fs path) = ((st, out), Normal bs)
      /\ bs = bubbles st
      /\ map (dict_get "folderName") bs
         = map (fun f => Some (VStr f)) (accepted_folders fs path))
  /\ forall f st out e w1,
      Re.match_folder_name f = true ->
      path_exists fs (config_path path f) = true ->
      Console.process_config c fs f (Path.join path f) (config_path path f) (st, out)
      = (w1, Raise e) ->
      Console.loop_body c fs path f (st, out)
      = ((st, (out ++ [Line (error_line f e)])%list), Normal tt)
      /\ is_error (Line (error_line f e)) = true
      /\ forall rest,
          fst (fst (console_loop c fs path (f :: rest) (st, out)))
          = fst (fst (console_loop c fs path rest (st, out)))
          /\ snd (console_loop c fs path (f :: rest) (st, out))
             = snd (console_loop c fs path rest (st, out)).
Proof.
  intros Hc Ho Hls. split.
  - unfold Console.run, Scan.run. rewrite (scan_bubbles_folder_same c fs path Hc).
    exact (scan_returns_accepted fs path Ho Hls).
  - intros f st out e w1 Hm Hx Hp.
    rewrite (process_config_same c fs f _ _ Hc) in Hp.
    pose proof (process_config_raises_ordinary _ _ _ _ _ _ _ Ho Hp) as He.
    pose proof (loop_body_catches _ _ _ _ _ _ _ Hm Hx Hp He) as Hb.
    rewrite (loop_body_same c fs path f Hc).
    split; [exact Hb|]. split.
    + unfold error_line. destruct (isinstance e JSONDecodeError); reflexivity.
    + intros rest. rewrite !(console_loop_same c fs path _ Hc).
      eapply skipped_folder_unaffected; [exact Hb|auto].
Qed.

Lemma ordinary_exceptions_do_not_abort_witness :
  (exists st out bs,
      Console.run (Console.scan_bubbles_folder Console.quiet fs_bad_json "bubbles")
      = ((st, out), Normal bs)
      /\ bs = bubbles st
      /\ map (dict_get "folderName") bs = [Some (VStr "2024-02-01T08-00-00")])
  /\ Console.loop_body Console.quiet fs_bad_json "bubbles" "2024-01-15T10-30-00"
                       (no_vars, [])
     = ((no_vars,
         [Line "ERROR: Error parsing config.json in '2024-01-15T10-30-00': Expecting value: line 1 column 1 (char 0)"]),
        Normal tt).
Proof.
  assert (Hc : takes_every_line Console.quiet) by (intros m; reflexivity).
  assert (Ho : ordinary_errors fs_bad_json).
  { intros p e. cbn.
    repeat match goal with
           | |- context [if ?c then _ else _] => destruct c
           end;
      intros H; inversion H; reflexivity. }
  assert (Hl : path_exists fs_bad_json "bubbles" = true ->
               exists names, listdir fs_bad_json "bubbles" = inr names).
  { intros _. eexists. reflexivity. }
  destruct (ordinary_exceptions_do_not_abort Console.quiet fs_bad_json "bubbles"
              Hc Ho Hl) as [H1 H2].
  split; [exact H1|].
  apply (H2 "2024-01-15T10-30-00" no_vars [] bad_json (no_vars, []));
    reflexivity.
Defined.
